(** * RPN calculator core ([c_library/calculator.c]): a shallow embedding

    The C translation unit evaluates expressions in Reverse Polish Notation
    and converts them to infix notation.  This development embeds its
    functions as Rocq functions and proves properties of them.

    - C [double] values are binary64 primitive floats, so the arithmetic
      of the program is computed, not axiomatised.
    - NUL-terminated C strings are [string]s (the terminator is implicit;
      a token holds no NUL byte).
    - A read or write that C leaves undefined (a store past the end of a
      fixed-size array, a conversion to [int] that is out of range) is the
      explicit outcome [Undefined] / [Fault].
    - [printf] tracing has no effect on results and is omitted.
    - [malloc] is taken to succeed. *)

From Stdlib Require Import ZArith List String Ascii Bool Lia.
From Stdlib Require Import Floats.PrimFloat Floats.SpecFloat Floats.FloatOps.
From Stdlib Require Import Uint63.
Import ListNotations.

Local Open Scope string_scope.
Local Open Scope Z_scope.

(** ** Outcomes of a C computation *)

Inductive exec (A : Type) : Type :=
| Done (a : A)
| Undefined.
Arguments Done {A} a.
Arguments Undefined {A}.

(** ** The part of the C library the program calls *)

Module CLib.

Definition NUL : ascii := Ascii.zero.

(** [s[i]] for [i <= strlen s]; the character at [strlen s] is the terminator. *)
Definition char_at (s : string) (i : nat) : ascii :=
  match String.get i s with
  | Some c => c
  | None => NUL
  end.

Definition strlen (s : string) : nat := String.length s.

(** [strcmp(a, b) == 0] *)
Definition streq (a b : string) : bool := String.eqb a b.

Definition code (c : ascii) : Z := Z.of_nat (nat_of_ascii c).

Definition isspace (c : ascii) : bool :=
  (code c =? 32) || ((9 <=? code c) && (code c <=? 13)).

Definition isdigit (c : ascii) : bool :=
  (48 <=? code c) && (code c <=? 57).

Definition isalpha (c : ascii) : bool :=
  ((65 <=? code c) && (code c <=? 90)) || ((97 <=? code c) && (code c <=? 122)).

Definition tolower (c : ascii) : ascii :=
  if (65 <=? code c) && (code c <=? 90)
  then ascii_of_nat (nat_of_ascii c + 32)
  else c.

Definition digit_val (c : ascii) : Z := code c - 48.

Definition isxdigit (c : ascii) : bool :=
  isdigit c || ((97 <=? code (tolower c)) && (code (tolower c) <=? 102)).

Definition xdigit_val (c : ascii) : Z :=
  if isdigit c then digit_val c else code (tolower c) - 87.

(** *** Conversions between [double] and integers *)

Definition INT_MAX : Z := 2147483647.
Definition INT_MIN : Z := -2147483648.

(** [(double) i] for an [int] [i]; exact, every [int] is a binary64 value. *)
Definition double_of_int (i : Z) : float :=
  if i <? 0 then PrimFloat.opp (of_uint63 (Uint63.of_Z (- i)))
  else of_uint63 (Uint63.of_Z i).

(** [(int) x]: truncation toward zero; undefined when the truncated value
    is not representable (C11 6.3.1.4), which includes NaN and infinities. *)
Definition int_of_double (x : float) : option Z :=
  match Prim2SF x with
  | S754_zero _ => Some 0
  | S754_finite s m e =>
      let mag := if 0 <=? e then Z.shiftl (Z.pos m) e else Z.shiftr (Z.pos m) (- e) in
      let v := if s then - mag else mag in
      if (INT_MIN <=? v) && (v <=? INT_MAX) then Some v else None
  | _ => None
  end.

(** The binary64 value nearest to [m * 2^e] (ties to even). *)
Definition Z2F (m e : Z) : float := SF2Prim (binary_normalize prec emax m e false).

(** The binary64 value nearest to [n / d], for [0 <= n] and [0 < d]: the
    quotient is taken with more than 64 significant bits and a sticky bit,
    so that the single rounding of [Z2F] is the correct one. *)
Definition Q2F (n d : Z) : float :=
  if n =? 0 then PrimFloat.zero
  else
    let s := Z.max 0 (Z.log2 d - Z.log2 n + 66) in
    let q := Z.shiftl n s / d in
    let sticky := if Z.shiftl n s mod d =? 0 then 0 else 1 in
    Z2F (2 * q + sticky) (- (s + 1)).

(** *** [round]: to the nearest integer, halfway cases away from zero *)

Definition round (x : float) : float :=
  match Prim2SF x with
  | S754_finite s m e =>
      if 0 <=? e then x
      else
        let z := Z.shiftr (Z.pos m + Z.shiftl 1 (- e - 1)) (- e) in
        let r := of_uint63 (Uint63.of_Z z) in
        if s then PrimFloat.opp r else r
  | _ => x
  end.

(** *** [strtod]

    The subject sequence of ISO C 7.22.1.3 in the C locale: optional white
    space, an optional sign, then a decimal number with optional exponent,
    a hexadecimal number with optional binary exponent, [inf] / [infinity],
    or [nan] with an optional parenthesised character sequence.  The
    result pairs the converted value with the unconsumed rest of the
    string ([*endptr] onwards).  Without a conversion the value is zero
    and the rest is the whole input. *)

Fixpoint skip_space (s : string) : string :=
  match s with
  | String c r => if isspace c then skip_space r else s
  | EmptyString => s
  end.

(** Digits in base [base]: accumulated value, number of digits, rest. *)
Fixpoint scan_digits (isd : ascii -> bool) (val : ascii -> Z) (base : Z)
    (s : string) (acc : Z) : Z * Z * string :=
  match s with
  | String c r =>
      if isd c then
        let '(v, n, rest) := scan_digits isd val base r (acc * base + val c) in
        (v, n + 1, rest)
      else (acc, 0, s)
  | EmptyString => (acc, 0, s)
  end.

(** An optional sign: [true] for a minus. *)
Definition scan_sign (s : string) : bool * string :=
  match s with
  | String "-" r => (true, r)
  | String "+" r => (false, r)
  | _ => (false, s)
  end.

(** An optional exponent introduced by the letter [marker] (lower case):
    the letter, an optional sign and at least one decimal digit.  A
    malformed exponent is not consumed. *)
Definition scan_exponent (marker : ascii) (s : string) : Z * string :=
  match s with
  | String c r =>
      if Ascii.eqb (tolower c) marker then
        let '(neg, r1) := scan_sign r in
        let '(x, n, r2) := scan_digits isdigit digit_val 10 r1 0 in
        if n =? 0 then (0, s) else (if neg then - x else x, r2)
      else (0, s)
  | EmptyString => (0, s)
  end.

(** Mantissa digits with an optional radix point: value of all the digits,
    number of digits, number of digits after the point, rest. *)
Definition scan_mantissa (isd : ascii -> bool) (val : ascii -> Z) (base : Z)
    (s : string) : Z * Z * Z * string :=
  let '(m1, n1, r1) := scan_digits isd val base s 0 in
  match r1 with
  | String "." r =>
      let '(m2, n2, r2) := scan_digits isd val base r m1 in
      (m2, n1 + n2, n2, r2)
  | _ => (m1, n1, 0, r1)
  end.

Definition scan_decimal (s : string) : option (float * string) :=
  let '(m, n, nfrac, r) := scan_mantissa isdigit digit_val 10 s in
  if n =? 0 then None
  else
    let '(x, rest) := scan_exponent "e" r in
    let e10 := x - nfrac in
    Some (if 0 <=? e10 then Z2F (m * 10 ^ e10) 0 else Q2F m (10 ^ (- e10)), rest).

Definition scan_hex (s : string) : option (float * string) :=
  match s with
  | String "0" (String c r0) =>
      if Ascii.eqb (tolower c) "x" then
        let '(m, n, nfrac, r) := scan_mantissa isxdigit xdigit_val 16 r0 in
        if n =? 0 then None
        else
          let '(x, rest) := scan_exponent "p" r in
          Some (Z2F m (x - 4 * nfrac), rest)
      else None
  | _ => None
  end.

(** [strip_prefix_ci p s]: the rest of [s] after [p], letters compared
    without regard to case ([p] is lower case). *)
Fixpoint strip_prefix_ci (p s : string) : option string :=
  match p, s with
  | EmptyString, _ => Some s
  | String a p', String b s' =>
      if Ascii.eqb a (tolower b) then strip_prefix_ci p' s' else None
  | String _ _, EmptyString => None
  end.

Fixpoint skip_nchars (s : string) : string :=
  match s with
  | String c r =>
      if isdigit c || isalpha c || Ascii.eqb c "_" then skip_nchars r else s
  | EmptyString => s
  end.

Definition scan_special (s : string) : option (float * string) :=
  match strip_prefix_ci "infinity" s with
  | Some r => Some (PrimFloat.infinity, r)
  | None =>
      match strip_prefix_ci "inf" s with
      | Some r => Some (PrimFloat.infinity, r)
      | None =>
          match strip_prefix_ci "nan" s with
          | Some r =>
              match r with
              | String "(" r1 =>
                  match skip_nchars r1 with
                  | String ")" r2 => Some (PrimFloat.nan, r2)
                  | _ => Some (PrimFloat.nan, r)
                  end
              | _ => Some (PrimFloat.nan, r)
              end
          | None => None
          end
      end
  end.

(** The conversion, when the string starts with a subject sequence. *)
Definition strtod_conversion (nptr : string) : option (float * string) :=
  let '(neg, s) := scan_sign (skip_space nptr) in
  let body :=
    match scan_special s with
    | Some r => Some r
    | None =>
        match scan_hex s with
        | Some r => Some r
        | None => scan_decimal s
        end
    end in
  match body with
  | Some (v, rest) => Some (if neg then PrimFloat.opp v else v, rest)
  | None => None
  end.

Definition strtod (nptr : string) : float * string :=
  match strtod_conversion nptr with
  | Some r => r
  | None => (PrimFloat.zero, nptr)
  end.

(** [atof(s)] is [strtod(s, NULL)]. *)
Definition atof (s : string) : float := fst (strtod s).

End CLib.

(** The functions of [<math.h>] that have no exact description: they are
    parameters of the embedding. *)
Record MathLib : Type := {
  c_sin : float -> float;
  c_cos : float -> float;
  c_tan : float -> float;
  c_asin : float -> float;
  c_acos : float -> float;
  c_atan : float -> float;
  c_log10 : float -> float;
  c_log : float -> float;
  c_pow : float -> float -> float;
  c_fmod : float -> float -> float
}.

(** ** The calculator *)

Module Calculator.
Import CLib.

(** *** Error codes and limits *)

Definition SUCCESS : Z := 0.
Definition DIVISION_BY_ZERO : Z := 1.
Definition INVALID_OPERATOR : Z := 2.
Definition STACK_UNDERFLOW : Z := 3.
Definition MEMORY_ERROR : Z := 4.
Definition UNDEFINED_VARIABLE : Z := 5.
Definition STACK_MAXIMUM : Z := 6.
Definition EXPR_LENGHT_MAXIMUM : Z := 7.
Definition FACTORIAL_ERROR : Z := 8.
Definition SQUARE_ROOT_INVALID_OPERATOR : Z := 9.
Definition LOG_ERROR : Z := 10.
Definition LN_ERROR : Z := 11.
Definition TAN_INVALID_OPERATOR : Z := 12.
Definition INVALID_TRIG_OPERATOR : Z := 13.

Definition MAX_STACK_SIZE : Z := 100.
Definition MAX_VARIABLES : Z := 100.
Definition MAX_EXPR_LENGTH : Z := 1000.

Definition M_PI : float := 0x1.921fb54442d18p+1%float.
Definition M_E : float := 0x1.5bf0a8b145769p+1%float.

(** *** Data *)

Record CalculationResult : Type := {
  value : float;
  error_code : Z
}.

(** A [ReversePolishExpression]: the token array with its length.  A null
    pointer (to the structure or to the array) is [None]. *)
Definition ReversePolishExpression : Type := list string.

(** [Variable] of the source ([Variable] is reserved in Rocq). *)
Record Variable_t : Type := {
  name : string;
  var_value : float
}.

Record ConversionResult : Type := {
  expression : string;
  conv_error_code : Z
}.

(** The state of one iteration of a token loop: go on with a new stack,
    leave the function with a result, or run into undefined behaviour. *)
Inductive step (St Res : Type) : Type :=
| Next (s : St)
| Return (r : Res)
| Fault.
Arguments Next {St Res} s.
Arguments Return {St Res} r.
Arguments Fault {St Res}.

(** *** The variable table *)

(** [variables] and [variable_count] after [init_default_variables]: the
    first [variable_count] entries of the array, in order. *)
Definition init_default_variables : list Variable_t :=
  [ {| name := "pi"; var_value := M_PI |};
    {| name := "e"; var_value := M_E |} ].

(** The value and the error code after the call. *)
Fixpoint get_variable_value (variables : list Variable_t) (nm : string)
    (error_code : Z) : float * Z :=
  match variables with
  | v :: rest =>
      if streq (name v) nm then (var_value v, error_code)
      else get_variable_value rest nm error_code
  | [] => (PrimFloat.zero, UNDEFINED_VARIABLE)
  end.

(** *** Token classification *)

Definition is_operator (token : string) : bool :=
  streq token "+" ||
  streq token "-" ||
  streq token "*" ||
  streq token "/" ||
  streq token "^" ||
  streq token "!" ||
  streq token "sqrt" ||
  streq token "sin" ||
  streq token "cos" ||
  streq token "tan" ||
  streq token "arcsin" ||
  streq token "arccos" ||
  streq token "arctan" ||
  streq token "log" ||
  streq token "ln" ||
  streq token "ans".

(** [endptr] points at the terminator when the rest is empty, and at a
    newline followed by the terminator when the rest is that one newline. *)
Definition is_number (token : string) : bool :=
  let endptr := snd (strtod token) in
  match endptr with
  | EmptyString => true
  | String c EmptyString => Ascii.eqb c "010"
  | _ => false
  end.

Section Evaluator.

(** The transcendental functions of the C library in use. *)
Variable libm : MathLib.

(** *** Numeric helpers *)

Local Open Scope float_scope.

Fixpoint factorial_loop (count : nat) (i : Z) (result : float) : float :=
  match count with
  | O => result
  | S count' => factorial_loop count' (i + 1)%Z (result * double_of_int i)
  end.

(** The returned value and the error code after the call.  The loop
    [for (int i = 1; i <= (int)n; i++)] runs [(int)n] times; for
    [(int)n = INT_MAX] its counter overflows. *)
Definition factorial (n : float) (error_code : Z) : exec (float * Z) :=
  if n <? 0 then Done (nan, FACTORIAL_ERROR)
  else
    match int_of_double n with
    | None => Undefined
    | Some k =>
        if negb (n =? double_of_int k) then Done (nan, FACTORIAL_ERROR)
        else if (n =? 0) || (n =? 1) then Done (1, error_code)
        else if (k =? INT_MAX)%Z then Undefined
        else Done (factorial_loop (Z.to_nat k) 1%Z 1, error_code)
    end.

Definition round_to_9_decimals (v : float) : float :=
  round (v * 1e9) / 1e9.

(** *** [apply_operator]

    The returned value and the error code after the call.  For a token
    that is no known name and not a single character, the local [result]
    is rounded while still unset; that value is dropped, the function
    stores [INVALID_OPERATOR] and returns 0. *)
Definition apply_operator (op : string) (a b : float) (error_code : Z)
    : exec (float * Z) :=
  if streq op "sqrt" then
    if a <? 0 then Done (0, SQUARE_ROOT_INVALID_OPERATOR)
    else Done (round_to_9_decimals (PrimFloat.sqrt a), error_code)
  else if streq op "sin" then
    Done (round_to_9_decimals (c_sin libm a), error_code)
  else if streq op "cos" then
    Done (round_to_9_decimals (c_cos libm a), error_code)
  else if streq op "tan" then
    if c_fmod libm (PrimFloat.abs a) M_PI =? M_PI / 2
    then Done (0, TAN_INVALID_OPERATOR)
    else Done (round_to_9_decimals (c_tan libm a), error_code)
  else if streq op "arcsin" then
    if (a <? -1) || (1 <? a) then Done (0, INVALID_TRIG_OPERATOR)
    else Done (round_to_9_decimals (c_asin libm a), error_code)
  else if streq op "arccos" then
    if (a <? -1) || (1 <? a) then Done (0, INVALID_TRIG_OPERATOR)
    else Done (round_to_9_decimals (c_acos libm a), error_code)
  else if streq op "arctan" then
    Done (round_to_9_decimals (c_atan libm a), error_code)
  else if streq op "log" then
    if a <=? 0 then Done (0, LOG_ERROR)
    else Done (round_to_9_decimals (c_log10 libm a), error_code)
  else if streq op "ln" then
    if a <=? 0 then Done (0, LN_ERROR)
    else Done (round_to_9_decimals (c_log libm a), error_code)
  else if Nat.eqb (strlen op) 1 then
    let c := char_at op 0 in
    if Ascii.eqb c "+" then Done (round_to_9_decimals (a + b), error_code)
    else if Ascii.eqb c "-" then Done (round_to_9_decimals (a - b), error_code)
    else if Ascii.eqb c "*" then Done (round_to_9_decimals (a * b), error_code)
    else if Ascii.eqb c "/" then
      if b =? 0 then Done (0, DIVISION_BY_ZERO)
      else Done (round_to_9_decimals (a / b), error_code)
    else if Ascii.eqb c "^" then
      Done (round_to_9_decimals (c_pow libm a b), error_code)
    else if Ascii.eqb c "!" then
      if negb (b =? 0) then Done (0, INVALID_OPERATOR)
      else
        match factorial a error_code with
        | Undefined => Undefined
        | Done (result, error_code') =>
            if negb (error_code' =? SUCCESS)%Z then Done (0, error_code')
            else Done (round_to_9_decimals result, error_code')
        end
    else Done (0, INVALID_OPERATOR)
  else Done (0, INVALID_OPERATOR).

Local Close Scope float_scope.

(** *** [evaluate_rpn] *)

(** The operand stack [double stack[MAX_STACK_SIZE]] with [stack_top]: the
    list holds [stack[stack_top]], ..., [stack[0]], top first. *)
Definition stack_top {A : Type} (stack : list A) : Z :=
  Z.of_nat (List.length stack) - 1.

Definition failure (code : Z) : CalculationResult :=
  {| value := PrimFloat.zero; error_code := code |}.

(** The test that selects the one-operand branch. *)
Definition is_unary (token : string) : bool :=
  Ascii.eqb (char_at token 0) "!" ||
  streq token "sqrt" || streq token "sin" || streq token "cos" ||
  streq token "tan" || streq token "arcsin" || streq token "arccos" ||
  streq token "arctan" || streq token "log" || streq token "ln".

(** One iteration of the loop of [evaluate_rpn]; [length] is [rpn->length]. *)
Definition evaluate_token (length : Z) (stack : list float) (token : string)
    : step (list float) CalculationResult :=
  if is_operator token then
    if is_unary token then
      if stack_top stack <? 0 then Return (failure INVALID_OPERATOR)
      else
        match stack with
        | a :: stack1 =>
            match apply_operator token a PrimFloat.zero SUCCESS with
            | Undefined => Fault
            | Done (op_result, error_code) =>
                if negb (error_code =? SUCCESS) then Return (failure error_code)
                else Next (op_result :: stack1)
            end
        | [] => Fault
        end
    else
      if stack_top stack <? 1 then Return (failure STACK_UNDERFLOW)
      else
        match stack with
        | b :: a :: stack2 =>
            match apply_operator token a b SUCCESS with
            | Undefined => Fault
            | Done (op_result, error_code) =>
                if negb (error_code =? SUCCESS) then Return (failure error_code)
                else Next (op_result :: stack2)
            end
        | _ => Fault
        end
  else if is_number token then
    if stack_top stack + 1 >=? MAX_STACK_SIZE then Return (failure STACK_MAXIMUM)
    else
      let stack' := atof token :: stack in
      if length >? MAX_EXPR_LENGTH then Return (failure EXPR_LENGHT_MAXIMUM)
      else Next stack'
  else
    let '(v, error_code) := get_variable_value init_default_variables token SUCCESS in
    if negb (error_code =? SUCCESS) then Return (failure error_code)
    else
      (* stack[++stack_top] = value, with no capacity test *)
      if stack_top stack + 1 >=? MAX_STACK_SIZE then Fault
      else Next (v :: stack).

(** The loop over the tokens that remain. *)
Fixpoint evaluate_loop (length : Z) (tokens : list string) (stack : list float)
    : step (list float) CalculationResult :=
  match tokens with
  | [] => Next stack
  | token :: rest =>
      match evaluate_token length stack token with
      | Next stack' => evaluate_loop length rest stack'
      | Return r => Return r
      | Fault => Fault
      end
  end.

Definition evaluate_rpn (rpn : option ReversePolishExpression)
    : exec CalculationResult :=
  match rpn with
  | None => Done (failure MEMORY_ERROR)
  | Some tokens =>
      match evaluate_loop (Z.of_nat (List.length tokens)) tokens [] with
      | Fault => Undefined
      | Return r => Done r
      | Next stack =>
          if negb (stack_top stack =? 0) then Done (failure STACK_UNDERFLOW)
          else Done {| value := List.last stack PrimFloat.zero; error_code := SUCCESS |}
      end
  end.

Definition calculate_rpn (rpn : option ReversePolishExpression)
    : exec CalculationResult :=
  evaluate_rpn rpn.

(** The boundary operation [evaluate] on a token sequence. *)
Definition evaluate (tokens : list string) : exec CalculationResult :=
  calculate_rpn (Some tokens).

End Evaluator.

(** *** [needs_parentheses] *)

(** The value of the character constant written with the square-root sign
    in the source: a constant of three bytes (E2 88 9A in UTF-8), whose
    [int] value is the bytes taken as base-256 digits.  It is compared
    with a [char] promoted to [int]. *)
Definition SQRT_SIGN : Z := 14846106.

(** The scan [for (i = 0; i < strlen(expr); i++)], from position [i] on. *)
Fixpoint needs_parentheses_scan (expr : string) (op : ascii) : bool :=
  match expr with
  | EmptyString => false
  | String c rest =>
      if Ascii.eqb op "!" || (code op =? SQRT_SIGN) then true
      else if (Ascii.eqb op "*" || Ascii.eqb op "/") &&
              (Ascii.eqb c "+" || Ascii.eqb c "-") then true
      else if Ascii.eqb op "^" && (Ascii.eqb c "*" || Ascii.eqb c "/") then true
      else needs_parentheses_scan rest op
  end.

Definition needs_parentheses (expr : string) (op : ascii) : bool :=
  if Nat.leb (strlen expr) 1 then false
  else if Ascii.eqb (char_at expr 0) "(" &&
          Ascii.eqb (char_at expr (strlen expr - 1)) ")" then false
  else needs_parentheses_scan expr op.

(** *** [rpn_to_infix] *)

(** [snprintf(buf, size, ...)] keeps at most [size - 1] characters. *)
Definition snprintf (size : nat) (formatted : string) : string :=
  String.substring 0 (size - 1) formatted.

(** [strncpy(dst, src, n)] into a buffer of zeros. *)
Definition strncpy (src : string) (n : nat) : string :=
  String.substring 0 n src.

Definition conv_failure (code : Z) : ConversionResult :=
  {| expression := ""; conv_error_code := code |}.

(** The format ["%s%s%s %c %s%s%s"] applied to its seven arguments. *)
Definition combine_format (need_parens_a : bool) (a : string) (c : ascii)
    (need_parens_b : bool) (b : string) : string :=
  ((if need_parens_a then "(" else "") ++ a ++ (if need_parens_a then ")" else "")
   ++ " " ++ String c "" ++ " " ++
   (if need_parens_b then "(" else "") ++ b ++ (if need_parens_b then ")" else ""))%string.

(** One iteration of the loop of [rpn_to_infix].  The stack is
    [char* stack[MAX_STACK_SIZE]] with [stack_top], top first. *)
Definition infix_token (stack : list string) (token : string)
    : step (list string) ConversionResult :=
  if negb (is_operator token) then
    (* stack[++stack_top] = expr, with no capacity test *)
    if stack_top stack + 1 >=? MAX_STACK_SIZE then Fault
    else Next (token :: stack)
  else
    if stack_top stack <? 1 then Return (conv_failure STACK_UNDERFLOW)
    else
      match stack with
      | b :: a :: stack2 =>
          let new_len := (strlen a + strlen b + 10)%nat in
          let need_parens_a := needs_parentheses a (char_at token 0) in
          let need_parens_b := needs_parentheses b (char_at token 0) in
          let expr :=
            snprintf new_len
              (combine_format need_parens_a a (char_at token 0) need_parens_b b) in
          Next (expr :: stack2)
      | _ => Fault
      end.

Fixpoint infix_loop (tokens : list string) (stack : list string)
    : step (list string) ConversionResult :=
  match tokens with
  | [] => Next stack
  | token :: rest =>
      match infix_token stack token with
      | Next stack' => infix_loop rest stack'
      | Return r => Return r
      | Fault => Fault
      end
  end.

Definition rpn_to_infix (rpn : option ReversePolishExpression)
    : exec ConversionResult :=
  match rpn with
  | None => Done (conv_failure MEMORY_ERROR)
  | Some tokens =>
      match infix_loop tokens [] with
      | Fault => Undefined
      | Return r => Done r
      | Next stack =>
          if negb (stack_top stack =? 0) then Done (conv_failure STACK_UNDERFLOW)
          else Done {| expression :=
                         strncpy (List.last stack "") (Z.to_nat (MAX_EXPR_LENGTH - 1));
                       conv_error_code := SUCCESS |}
      end
  end.

Definition convert_rpn_to_infix (rpn : option ReversePolishExpression)
    : exec ConversionResult :=
  rpn_to_infix rpn.

(** The boundary operation [convertToInfix] on a token sequence. *)
Definition convertToInfix (tokens : list string) : exec ConversionResult :=
  convert_rpn_to_infix (Some tokens).

End Calculator.

Import CLib Calculator.

(** ** Vocabulary of the specification *)

(** The operator tokens with exactly one operand: the factorial symbol and
    the named functions. *)
Definition unary_operators : list string :=
  ["!"; "sqrt"; "sin"; "cos"; "tan"; "arcsin"; "arccos"; "arctan"; "log"; "ln"].

(** The other operator tokens. *)
Definition binary_operators : list string :=
  ["+"; "-"; "*"; "/"; "^"; "ans"].

(** The token parses in its entirety as a floating-point literal, a single
    trailing newline tolerated: [strtod] performs a conversion and leaves
    nothing, or one newline, unread. *)
Definition parses_as_number (token : string) : bool :=
  match strtod_conversion token with
  | Some (_, rest) => String.eqb rest "" || String.eqb rest (String "010" "")
  | None => false
  end.

(** A name is defined when the variable table holds it. *)
Definition defined_variable (nm : string) : bool :=
  existsb (fun v => streq (name v) nm) init_default_variables.

(** Parenthesised rendering of one side of an operator [c]. *)
Definition rendered (side : string) (c : ascii) : string :=
  if needs_parentheses side c then ("(" ++ side ++ ")")%string else side.

(** A sequence of exactly 1000 tokens: 1 sqrt, then 499 times 1 +. *)
Definition thousand_tokens : list string :=
  "1" :: "sqrt" :: List.concat (repeat ["1"; "+"] 499).

(** Tokens that push an operand: those that are no operator. *)
Definition operand_count (tokens : list string) : nat :=
  List.length (filter (fun t => negb (is_operator t)) tokens).

(** Operator tokens; those evaluate takes to its two-operand branch. *)
Definition operator_count (tokens : list string) : nat :=
  List.length (filter is_operator tokens).

Definition binary_count (tokens : list string) : nat :=
  List.length (filter (fun t => is_operator t && negb (is_unary t)) tokens).

(** The error codes evaluate can report for a token sequence. *)
Definition evaluate_error_codes : list Z :=
  [DIVISION_BY_ZERO; INVALID_OPERATOR; STACK_UNDERFLOW; UNDEFINED_VARIABLE;
   STACK_MAXIMUM; EXPR_LENGHT_MAXIMUM; FACTORIAL_ERROR;
   SQUARE_ROOT_INVALID_OPERATOR; LOG_ERROR; LN_ERROR; TAN_INVALID_OPERATOR;
   INVALID_TRIG_OPERATOR].

(** The integer [n!]. *)
Definition Zfactorial (n : nat) : Z :=
  fold_left Z.mul (map Z.of_nat (seq 1 n)) 1.

(** Some character of the string satisfies [p]. *)
Definition contains_char (p : ascii -> bool) (s : string) : bool :=
  existsb p (list_ascii_of_string s).

(** The string starts with an opening and ends with a closing parenthesis. *)
Definition enclosed (expr : string) : bool :=
  Ascii.eqb (char_at expr 0) "(" && Ascii.eqb (char_at expr (strlen expr - 1)) ")".

(** The result of an evaluation that succeeds with [v]. *)
Definition success (v : float) : exec CalculationResult :=
  Done {| value := v; error_code := SUCCESS |}.

(** A math library that answers NaN everywhere.  The closed examples run
    with it; none of them reaches a transcendental function, and every
    general statement below holds for an arbitrary library. *)
Definition nan_libm : MathLib := {|
  c_sin := fun _ => PrimFloat.nan;
  c_cos := fun _ => PrimFloat.nan;
  c_tan := fun _ => PrimFloat.nan;
  c_asin := fun _ => PrimFloat.nan;
  c_acos := fun _ => PrimFloat.nan;
  c_atan := fun _ => PrimFloat.nan;
  c_log10 := fun _ => PrimFloat.nan;
  c_log := fun _ => PrimFloat.nan;
  c_pow := fun _ _ => PrimFloat.nan;
  c_fmod := fun _ _ => PrimFloat.nan
|}.

(** ** The C library model on sample inputs *)

Example strtod_integer : strtod "5" = (5%float, "").
Proof. vm_compute. reflexivity. Qed.

Example strtod_fraction : strtod "0.1" = (0x1.999999999999ap-4%float, "").
Proof. vm_compute. reflexivity. Qed.

Example strtod_exponent_rest : strtod "-1.5e3x" = ((-1500)%float, "x").
Proof. vm_compute. reflexivity. Qed.

Example strtod_malformed_exponent : strtod "1e+" = (1%float, "e+").
Proof. vm_compute. reflexivity. Qed.

Example strtod_hexadecimal : strtod "0x.8p1" = (1%float, "").
Proof. vm_compute. reflexivity. Qed.

Example strtod_ties_to_even :
  strtod "9007199254740993" = (9007199254740992%float, "").
Proof. vm_compute. reflexivity. Qed.

Example strtod_infinity : strtod "-InfinityX" = (PrimFloat.neg_infinity, "X").
Proof. vm_compute. reflexivity. Qed.

Example strtod_leading_space : strtod " 5 " = (5%float, " ").
Proof. vm_compute. reflexivity. Qed.

Example strtod_no_conversion : strtod " e" = (0%float, " e").
Proof. vm_compute. reflexivity. Qed.

Example atof_pi : atof "3.14159265358979323846" = M_PI.
Proof. vm_compute. reflexivity. Qed.

Example atof_e : atof "2.71828182845904523536" = M_E.
Proof. vm_compute. reflexivity. Qed.

Example round_half_away :
  round 0x1.4p+1%float = 3%float /\ round (-0x1.4p+1)%float = (-3)%float /\
  round 0x1.fffffffffffffp-2%float = 0%float.
Proof. repeat split; vm_compute; reflexivity. Qed.

Example int_of_double_truncates :
  int_of_double 0x1.6cccccccccccdp+2%float = Some 5 /\
  int_of_double (-0x1.6cccccccccccdp+2)%float = Some (-5) /\
  int_of_double 0x1p+31%float = None /\
  int_of_double PrimFloat.nan = None.
Proof. repeat split; vm_compute; reflexivity. Qed.

Example round_to_9_decimals_sqrt2 (libm : MathLib) :
  apply_operator libm "sqrt" 2%float 0%float SUCCESS
  = Done (atof "1.414213562", SUCCESS).
Proof. vm_compute. reflexivity. Qed.

(** ** The token loops *)

Section Loops.

Variable libm : MathLib.

Lemma evaluate_loop_app (len : Z) (pre rest : list string) (stack : list float) :
  evaluate_loop libm len (pre ++ rest) stack =
  match evaluate_loop libm len pre stack with
  | Next stack' => evaluate_loop libm len rest stack'
  | Return r => Return r
  | Fault => Fault
  end.
Proof.
  revert stack.
  induction pre as [|t pre IH]; intros stack; cbn [app evaluate_loop].
  - reflexivity.
  - destruct (evaluate_token libm len stack t); auto.
Qed.

(** A token that returns ends the evaluation with that result. *)
Lemma evaluate_returns_at (pre rest : list string) (token : string)
    (stack : list float) (r : CalculationResult) :
  evaluate_loop libm (Z.of_nat (List.length (pre ++ token :: rest))) pre [] = Next stack ->
  evaluate_token libm (Z.of_nat (List.length (pre ++ token :: rest))) stack token = Return r ->
  evaluate libm (pre ++ token :: rest) = Done r.
Proof.
  intros Hpre Htok.
  unfold evaluate, calculate_rpn, evaluate_rpn.
  rewrite evaluate_loop_app, Hpre.
  cbn [evaluate_loop]. rewrite Htok. reflexivity.
Qed.

(** A token that faults makes the evaluation undefined. *)
Lemma evaluate_faults_at (pre rest : list string) (token : string)
    (stack : list float) :
  evaluate_loop libm (Z.of_nat (List.length (pre ++ token :: rest))) pre [] = Next stack ->
  evaluate_token libm (Z.of_nat (List.length (pre ++ token :: rest))) stack token = Fault ->
  evaluate libm (pre ++ token :: rest) = Undefined.
Proof.
  intros Hpre Htok.
  unfold evaluate, calculate_rpn, evaluate_rpn.
  rewrite evaluate_loop_app, Hpre.
  cbn [evaluate_loop]. rewrite Htok. reflexivity.
Qed.

Lemma stack_top_spec {A : Type} (stack : list A) :
  stack_top stack = Z.of_nat (List.length stack) - 1.
Proof. reflexivity. Qed.

Lemma unary_operators_classified (token : string) :
  In token unary_operators -> is_operator token = true /\ is_unary token = true.
Proof.
  unfold unary_operators. cbn [In].
  intros H. repeat (destruct H as [<- | H]; [split; reflexivity|]).
  contradiction.
Qed.

Lemma binary_operators_classified (token : string) :
  In token binary_operators -> is_operator token = true /\ is_unary token = false.
Proof.
  unfold binary_operators. cbn [In].
  intros H. repeat (destruct H as [<- | H]; [split; reflexivity|]).
  contradiction.
Qed.

(** The one-operand branch on an empty stack. *)
Lemma evaluate_token_unary_empty (len : Z) (token : string) :
  is_operator token = true -> is_unary token = true ->
  evaluate_token libm len [] token = Return (failure INVALID_OPERATOR).
Proof.
  intros Hop Hun. unfold evaluate_token. rewrite Hop, Hun. reflexivity.
Qed.

(** The two-operand branch on fewer than two operands. *)
Lemma evaluate_token_binary_underflow (len : Z) (token : string) (stack : list float) :
  is_operator token = true -> is_unary token = false ->
  (List.length stack < 2)%nat ->
  evaluate_token libm len stack token = Return (failure STACK_UNDERFLOW).
Proof.
  intros Hop Hun Hlen. unfold evaluate_token. rewrite Hop, Hun.
  replace (stack_top stack <? 1) with true; [reflexivity|].
  symmetry. apply Z.ltb_lt. rewrite stack_top_spec. lia.
Qed.

End Loops.

(** ** Factorial through [evaluate] *)

(** C1: as the code has it.  Evaluate
    on 5 ! yields 120 with SUCCESS; on 5 2 ! the factorial branch takes the
    single operand 2 and passes 0 as second operand, the result 2 is pushed
    back, and the two values left at the end make the evaluation fail with
    STACK_UNDERFLOW. *)
Theorem C1_factorial_in_evaluate (libm : MathLib) :
  evaluate libm ["5"; "!"] = Done {| value := 120%float; error_code := SUCCESS |} /\
  evaluate libm ["5"; "2"; "!"] = Done (failure STACK_UNDERFLOW) /\
  evaluate_loop libm 3 ["5"; "2"; "!"] [] = Next [2%float; 5%float].
Proof.
  repeat split; vm_compute; reflexivity.
Qed.

(** C1 as stated fails: evaluate on 5 2 ! does not end with
    INVALID_OPERATOR. *)
Lemma C1_second_operand_counterexample :
  ~ (exists v, evaluate nan_libm ["5"; "2"; "!"] =
               Done {| value := v; error_code := INVALID_OPERATOR |}).
Proof.
  intros [v H]. vm_compute in H. discriminate H.
Qed.

(** The rejection of a second operand lives in [apply_operator] alone:
    with a second operand that is not zero the factorial case stores
    INVALID_OPERATOR. *)
Lemma apply_operator_factorial_second_operand (libm : MathLib) (a b : float) (ec : Z) :
  PrimFloat.eqb b 0%float = false ->
  apply_operator libm "!" a b ec = Done (0%float, INVALID_OPERATOR).
Proof.
  intros Hb. unfold apply_operator. cbn. rewrite Hb. reflexivity.
Qed.

(** ** Operators without enough operands *)

(** Every token that lets the loop go on leaves a value on the stack. *)
Lemma evaluate_token_leaves_value (libm : MathLib) (len : Z)
    (stack stack' : list float) (token : string) :
  evaluate_token libm len stack token = Next stack' -> stack' <> [].
Proof.
  unfold evaluate_token.
  repeat match goal with
         | |- context [match ?c with _ => _ end] => destruct c
         end;
    intros H; inversion H; discriminate.
Qed.

(** The operand stack is empty only before the first token. *)
Lemma evaluate_loop_empty_stack (libm : MathLib) (len : Z) (pre : list string) :
  evaluate_loop libm len pre [] = Next [] -> pre = [].
Proof.
  intros H. destruct pre as [|t pre] using rev_ind; [reflexivity|].
  exfalso. rewrite evaluate_loop_app in H.
  destruct (evaluate_loop libm len pre []) as [stack| |]; try discriminate.
  cbn [evaluate_loop] in H.
  destruct (evaluate_token libm len stack t) as [stack'| |] eqn:Htok; try discriminate.
  inversion H; subst stack'.
  now apply evaluate_token_leaves_value in Htok.
Qed.

(** C2: as the code has it, a unary operator token met on an empty operand
    stack (it is then the first token) ends the evaluation with
    INVALID_OPERATOR; a binary operator token met with fewer than two
    operands ends it with STACK_UNDERFLOW. *)
Theorem C2_operator_without_operands (libm : MathLib)
    (pre rest : list string) (token : string) (stack : list float) :
  evaluate_loop libm (Z.of_nat (List.length (pre ++ token :: rest))) pre [] = Next stack ->
  (In token unary_operators -> stack = [] ->
   evaluate libm (pre ++ token :: rest) = Done (failure INVALID_OPERATOR)) /\
  (In token binary_operators -> (List.length stack < 2)%nat ->
   evaluate libm (pre ++ token :: rest) = Done (failure STACK_UNDERFLOW)).
Proof.
  intros Hpre. split.
  - intros Hin ->. destruct (unary_operators_classified token Hin) as [Hop Hun].
    eapply evaluate_returns_at; [exact Hpre|].
    now apply evaluate_token_unary_empty.
  - intros Hin Hlen. destruct (binary_operators_classified token Hin) as [Hop Hun].
    eapply evaluate_returns_at; [exact Hpre|].
    now apply evaluate_token_binary_underflow.
Qed.

Lemma C2_operator_without_operands_witness :
  evaluate nan_libm ["sqrt"; "1"] = Done (failure INVALID_OPERATOR) /\
  evaluate nan_libm ["7"; "+"] = Done (failure STACK_UNDERFLOW).
Proof.
  split.
  - apply (proj1 (C2_operator_without_operands nan_libm [] ["1"] "sqrt" [] eq_refl));
      [cbn; tauto | reflexivity].
  - apply (proj2 (C2_operator_without_operands nan_libm ["7"] [] "+" [7%float] eq_refl));
      [cbn; tauto | cbn; lia].
Defined.

(** C2 as stated fails: a unary operator on the empty stack does not end
    with STACK_UNDERFLOW. *)
Lemma C2_unary_empty_counterexample :
  ~ (exists v, evaluate nan_libm ["sqrt"] =
               Done {| value := v; error_code := STACK_UNDERFLOW |}).
Proof.
  intros [v H]. vm_compute in H. discriminate H.
Qed.

(** ** Pushing onto a full stack *)

Section Capacity.

Variable libm : MathLib.

Lemma stack_full {A : Type} (stack : list A) :
  List.length stack = 100%nat -> (stack_top stack + 1 >=? MAX_STACK_SIZE) = true.
Proof.
  intros H. rewrite stack_top_spec, H. reflexivity.
Qed.

(** A number token on a full operand stack is refused with STACK_MAXIMUM. *)
Lemma evaluate_token_number_full (len : Z) (stack : list float) (token : string) :
  List.length stack = 100%nat ->
  is_operator token = false -> is_number token = true ->
  evaluate_token libm len stack token = Return (failure STACK_MAXIMUM).
Proof.
  intros Hfull Hop Hnum. unfold evaluate_token.
  rewrite Hop, Hnum, (stack_full stack Hfull). reflexivity.
Qed.

Lemma get_variable_value_defined (vars : list Variable_t) (nm : string) (ec : Z) :
  existsb (fun v => streq (name v) nm) vars = true ->
  snd (get_variable_value vars nm ec) = ec.
Proof.
  induction vars as [|v vars IH]; cbn [existsb get_variable_value].
  - discriminate.
  - destruct (streq (name v) nm); cbn [orb]; auto.
Qed.

Lemma get_variable_value_undefined (vars : list Variable_t) (nm : string) (ec : Z) :
  existsb (fun v => streq (name v) nm) vars = false ->
  get_variable_value vars nm ec = (PrimFloat.zero, UNDEFINED_VARIABLE).
Proof.
  induction vars as [|v vars IH]; cbn [existsb get_variable_value].
  - reflexivity.
  - destruct (streq (name v) nm); cbn [orb]; [discriminate | auto].
Qed.

(** The value of a defined variable is stored past the end of a full
    operand stack: no capacity test guards that store. *)
Lemma evaluate_token_variable_full (len : Z) (stack : list float) (token : string) :
  List.length stack = 100%nat ->
  is_operator token = false -> is_number token = false ->
  defined_variable token = true ->
  evaluate_token libm len stack token = Fault.
Proof.
  intros Hfull Hop Hnum Hdef. unfold evaluate_token.
  rewrite Hop, Hnum.
  pose proof (get_variable_value_defined init_default_variables token SUCCESS Hdef) as Hec.
  destruct (get_variable_value init_default_variables token SUCCESS) as [v ec].
  cbn [snd] in Hec. subst ec. cbn [negb Z.eqb SUCCESS].
  rewrite (stack_full stack Hfull). reflexivity.
Qed.

(** An operand is stored past the end of a full expression-string stack. *)
Lemma infix_token_operand_full (stack : list string) (token : string) :
  List.length stack = 100%nat ->
  is_operator token = false ->
  infix_token stack token = Fault.
Proof.
  intros Hfull Hop. unfold infix_token.
  rewrite Hop. cbn [negb]. rewrite (stack_full stack Hfull). reflexivity.
Qed.

End Capacity.

(** C3: at its failing inputs.  The 101st number pushed by evaluate is
    refused with STACK_MAXIMUM, but the 101st variable value pushed by
    evaluate and the 101st operand pushed by convertToInfix are stored
    past the end of the 100-slot stack, which is undefined behaviour and
    no STACK_MAXIMUM result. *)
Theorem C3_push_at_capacity (libm : MathLib) :
  evaluate libm (repeat "1" 101) = Done (failure STACK_MAXIMUM) /\
  evaluate libm (repeat "pi" 101) = Undefined /\
  convertToInfix (repeat "1" 101) = Undefined.
Proof.
  repeat split; vm_compute; reflexivity.
Qed.

(** ** The length limit *)

Section LengthLimit.

Variable libm : MathLib.

Lemma factorial_code (n r : float) (ec : Z) :
  factorial n SUCCESS = Done (r, ec) -> ec = SUCCESS \/ ec = FACTORIAL_ERROR.
Proof.
  unfold factorial.
  repeat match goal with
         | |- context [match ?c with _ => _ end] => destruct c
         end;
    intros H; inversion H; auto.
Qed.

(** The codes [apply_operator] can leave never include the length code. *)
Lemma apply_operator_code (op : string) (a b r : float) (ec : Z) :
  apply_operator libm op a b SUCCESS = Done (r, ec) ->
  ec <> EXPR_LENGHT_MAXIMUM.
Proof.
  unfold apply_operator.
  destruct (factorial a SUCCESS) as [[fr fec]|] eqn:Hfact.
  - apply factorial_code in Hfact.
    repeat match goal with
           | |- context [if ?c then _ else _] => destruct c
           end;
      intros H; inversion H; subst; try discriminate;
      destruct Hfact as [-> | ->]; discriminate.
  - repeat match goal with
           | |- context [if ?c then _ else _] => destruct c
           end;
      intros H; inversion H; subst; discriminate.
Qed.

Lemma evaluate_token_code (len : Z) (stack : list float) (token : string)
    (r : CalculationResult) :
  len <= MAX_EXPR_LENGTH ->
  evaluate_token libm len stack token = Return r ->
  error_code r <> EXPR_LENGHT_MAXIMUM.
Proof.
  intros Hlen. unfold evaluate_token.
  destruct (is_operator token).
  - destruct (is_unary token).
    + destruct (stack_top stack <? 0); [intros H; inversion H; discriminate|].
      destruct stack as [|a stack1]; [discriminate|].
      destruct (apply_operator libm token a PrimFloat.zero SUCCESS) as [[v ec]|] eqn:Happ;
        [|discriminate].
      apply apply_operator_code in Happ.
      destruct (negb (ec =? SUCCESS)); [|discriminate].
      intros H; inversion H; exact Happ.
    + destruct (stack_top stack <? 1); [intros H; inversion H; discriminate|].
      destruct stack as [|b [|a stack2]]; try discriminate.
      destruct (apply_operator libm token a b SUCCESS) as [[v ec]|] eqn:Happ;
        [|discriminate].
      apply apply_operator_code in Happ.
      destruct (negb (ec =? SUCCESS)); [|discriminate].
      intros H; inversion H; exact Happ.
  - destruct (is_number token).
    + destruct (stack_top stack + 1 >=? MAX_STACK_SIZE);
        [intros H; inversion H; discriminate|].
      replace (len >? MAX_EXPR_LENGTH) with false; [discriminate|].
      symmetry. rewrite Z.gtb_ltb. apply Z.ltb_ge. exact Hlen.
    + destruct (defined_variable token) eqn:Hdef.
      * pose proof (get_variable_value_defined init_default_variables token SUCCESS Hdef) as Hec.
        destruct (get_variable_value init_default_variables token SUCCESS) as [v ec].
        cbn [snd] in Hec. subst ec. cbn [negb Z.eqb SUCCESS].
        destruct (stack_top stack + 1 >=? MAX_STACK_SIZE); discriminate.
      * rewrite (get_variable_value_undefined init_default_variables token SUCCESS Hdef).
        intros H; inversion H; discriminate.
Qed.

Lemma evaluate_loop_code (len : Z) (tokens : list string) (stack : list float)
    (r : CalculationResult) :
  len <= MAX_EXPR_LENGTH ->
  evaluate_loop libm len tokens stack = Return r ->
  error_code r <> EXPR_LENGHT_MAXIMUM.
Proof.
  intros Hlen. revert stack.
  induction tokens as [|t tokens IH]; intros stack; cbn [evaluate_loop].
  - discriminate.
  - destruct (evaluate_token libm len stack t) eqn:Htok.
    + apply IH.
    + intros H; inversion H; subst. eapply evaluate_token_code; eauto.
    + discriminate.
Qed.

(** A number token met with room on the stack in an over-long expression. *)
Lemma evaluate_token_number_too_long (len : Z) (stack : list float) (token : string) :
  MAX_EXPR_LENGTH < len ->
  (List.length stack < 100)%nat ->
  is_operator token = false -> is_number token = true ->
  evaluate_token libm len stack token = Return (failure EXPR_LENGHT_MAXIMUM).
Proof.
  intros Hlen Hroom Hop Hnum. unfold evaluate_token. rewrite Hop, Hnum.
  replace (stack_top stack + 1 >=? MAX_STACK_SIZE) with false.
  - replace (len >? MAX_EXPR_LENGTH) with true; [reflexivity|].
    symmetry. rewrite Z.gtb_ltb. apply Z.ltb_lt. exact Hlen.
  - symmetry. rewrite Z.geb_leb. apply Z.leb_gt.
    rewrite stack_top_spec. unfold MAX_STACK_SIZE. lia.
Qed.

End LengthLimit.

(** C4: as the code has it, the length test sits in the number branch.
    A sequence of at most 1000 tokens never ends with the length code; in
    a longer sequence the first number token that is reached with room on
    the stack ends the evaluation with EXPR_LENGHT_MAXIMUM. *)
Theorem C4_length_limit (libm : MathLib) (tokens : list string) :
  (Z.of_nat (List.length tokens) <= MAX_EXPR_LENGTH ->
   forall v, evaluate libm tokens <>
             Done {| value := v; error_code := EXPR_LENGHT_MAXIMUM |}) /\
  (MAX_EXPR_LENGTH < Z.of_nat (List.length tokens) ->
   forall (pre : list string) (token : string) (rest : list string)
          (stack : list float),
     tokens = (pre ++ token :: rest)%list ->
     evaluate_loop libm (Z.of_nat (List.length tokens)) pre [] = Next stack ->
     (List.length stack < 100)%nat ->
     is_operator token = false -> is_number token = true ->
     evaluate libm tokens = Done (failure EXPR_LENGHT_MAXIMUM)).
Proof.
  split.
  - intros Hlen v. unfold evaluate, calculate_rpn, evaluate_rpn.
    destruct (evaluate_loop libm (Z.of_nat (List.length tokens)) tokens [])
      as [stack|r|] eqn:Hloop.
    + destruct (negb (stack_top stack =? 0)); intros H; inversion H; discriminate.
    + intros H. inversion H; subst r.
      apply (evaluate_loop_code libm _ _ _ _ Hlen Hloop). reflexivity.
    + discriminate.
  - intros Hlen pre token rest stack -> Hpre Hroom Hop Hnum.
    eapply evaluate_returns_at; [exact Hpre|].
    now apply evaluate_token_number_too_long.
Qed.

Lemma C4_length_limit_witness :
  List.length thousand_tokens = 1000%nat /\
  (forall v, evaluate nan_libm thousand_tokens <>
             Done {| value := v; error_code := EXPR_LENGHT_MAXIMUM |}) /\
  evaluate nan_libm (repeat "1" 1001) = Done (failure EXPR_LENGHT_MAXIMUM).
Proof.
  split; [reflexivity|]. split.
  - apply (proj1 (C4_length_limit nan_libm thousand_tokens)).
    vm_compute. discriminate.
  - apply (proj2 (C4_length_limit nan_libm (repeat "1" 1001))
             ltac:(vm_compute; reflexivity) [] "1" (repeat "1" 1000) []);
      [reflexivity | reflexivity | cbn; lia | reflexivity | reflexivity].
Defined.

(** The 1000-token sequence is accepted: it evaluates to 500. *)
Lemma thousand_tokens_accepted (libm : MathLib) :
  evaluate libm thousand_tokens = Done {| value := 500%float; error_code := SUCCESS |}.
Proof. vm_compute. reflexivity. Qed.

(** C4 as stated fails: a sequence of 1001 tokens that starts with a
    binary operator ends with STACK_UNDERFLOW before any number token is
    looked at. *)
Lemma C4_long_sequence_counterexample :
  ~ (forall tokens, (1001 <= List.length tokens)%nat ->
       exists v, evaluate nan_libm tokens =
                 Done {| value := v; error_code := EXPR_LENGHT_MAXIMUM |}).
Proof.
  intros H.
  destruct (H ("+" :: repeat "1" 1000)) as [v Hv].
  - rewrite length_cons, repeat_length. lia.
  - vm_compute in Hv. discriminate Hv.
Qed.

(** A sequence of 1001 tokens that holds no number token at all is
    evaluated to the end. *)
Lemma long_sequence_without_number (libm : MathLib) :
  List.length ("pi" :: List.concat (repeat ["e"; "-"] 500)) = 1001%nat /\
  exists v, evaluate libm ("pi" :: List.concat (repeat ["e"; "-"] 500)) =
            Done {| value := v; error_code := SUCCESS |}.
Proof.
  split; [reflexivity|]. eexists. vm_compute. reflexivity.
Qed.

(** ** Token classification *)

Lemma is_number_without_conversion (token : string) :
  strtod_conversion token = None ->
  is_number token = true <-> token = "" \/ token = String "010" "".
Proof.
  intros Hnone. unfold is_number, strtod. rewrite Hnone. cbn [snd].
  destruct token as [|c [|c' rest]].
  - split; auto.
  - split.
    + intros H. apply Ascii.eqb_eq in H. subst c. auto.
    + intros [H|H]; [discriminate|]. inversion H. reflexivity.
  - split; [discriminate|]. intros [H|H]; discriminate.
Qed.

Lemma is_number_with_conversion (token rest : string) (v : float) :
  strtod_conversion token = Some (v, rest) ->
  is_number token = String.eqb rest "" || String.eqb rest (String "010" "").
Proof.
  intros Hsome. unfold is_number, strtod. rewrite Hsome. cbn [snd].
  destruct rest as [|c [|c' rest]]; cbn.
  - reflexivity.
  - destruct (Ascii.eqb c "010"); reflexivity.
  - destruct (Ascii.eqb c "010"); reflexivity.
Qed.

(** C5: at its failing input.  On the empty token [strtod] converts
    nothing, so the token does not parse as a number, yet is_number
    answers true.  In general is_number accepts exactly the tokens that
    parse in their entirety (a single trailing newline tolerated), and in
    addition the empty token and the token that is one newline. *)
Theorem C5_is_number_accepts_empty :
  is_number "" = true /\
  parses_as_number "" = false /\
  (forall token,
     is_number token = true <->
     parses_as_number token = true \/ token = "" \/ token = String "010" "").
Proof.
  split; [reflexivity|]. split; [reflexivity|].
  intros token. unfold parses_as_number.
  destruct (strtod_conversion token) as [[v rest]|] eqn:Hconv.
  - rewrite (is_number_with_conversion token rest v Hconv). split.
    + auto.
    + intros [H|[H|H]]; [exact H| |]; subst token; vm_compute in Hconv; discriminate.
  - rewrite (is_number_without_conversion token Hconv). split.
    + auto.
    + intros [H|H]; [discriminate | exact H].
Qed.

(** The empty token is therefore pushed as the number 0. *)
Lemma evaluate_empty_token (libm : MathLib) :
  evaluate libm [""] = Done {| value := 0%float; error_code := SUCCESS |}.
Proof. vm_compute. reflexivity. Qed.

(** C6: a token that is no operator and no number is looked up as a
    variable; when the table does not hold it the evaluation ends with
    UNDEFINED_VARIABLE. *)
Theorem C6_unknown_token_is_undefined_variable (libm : MathLib)
    (pre rest : list string) (token : string) (stack : list float) :
  evaluate_loop libm (Z.of_nat (List.length (pre ++ token :: rest))) pre [] = Next stack ->
  is_operator token = false -> is_number token = false ->
  defined_variable token = false ->
  evaluate libm (pre ++ token :: rest) = Done (failure UNDEFINED_VARIABLE).
Proof.
  intros Hpre Hop Hnum Hdef.
  eapply evaluate_returns_at; [exact Hpre|].
  unfold evaluate_token. rewrite Hop, Hnum.
  rewrite (get_variable_value_undefined init_default_variables token SUCCESS Hdef).
  reflexivity.
Qed.

Lemma C6_unknown_token_witness :
  evaluate nan_libm ["%%"] = Done (failure UNDEFINED_VARIABLE) /\
  UNDEFINED_VARIABLE <> INVALID_OPERATOR.
Proof.
  split.
  - apply (C6_unknown_token_is_undefined_variable nan_libm [] [] "%%" []);
      reflexivity.
  - discriminate.
Defined.

(** A defined name pushes its value when the stack has room. *)
Lemma evaluate_token_variable (libm : MathLib) (len : Z) (stack : list float)
    (token : string) :
  is_operator token = false -> is_number token = false ->
  defined_variable token = true ->
  (List.length stack < 100)%nat ->
  evaluate_token libm len stack token =
  Next (fst (get_variable_value init_default_variables token SUCCESS) :: stack).
Proof.
  intros Hop Hnum Hdef Hroom. unfold evaluate_token. rewrite Hop, Hnum.
  pose proof (get_variable_value_defined init_default_variables token SUCCESS Hdef) as Hec.
  destruct (get_variable_value init_default_variables token SUCCESS) as [v ec].
  cbn [snd fst] in *. subst ec. cbn [negb Z.eqb SUCCESS].
  replace (stack_top stack + 1 >=? MAX_STACK_SIZE) with false; [reflexivity|].
  symmetry. rewrite Z.geb_leb. apply Z.leb_gt.
  rewrite stack_top_spec. unfold MAX_STACK_SIZE. lia.
Qed.

(** ** Conversion to infix *)

(** C7: the two conversions of the specification. *)
Theorem C7_infix_examples :
  convertToInfix ["2"; "3"; "*"; "4"; "+"] =
    Done {| expression := "2 * 3 + 4"; conv_error_code := SUCCESS |} /\
  convertToInfix ["2"; "3"; "4"; "*"; "+"] =
    Done {| expression := "2 + 3 * 4"; conv_error_code := SUCCESS |}.
Proof.
  split; vm_compute; reflexivity.
Qed.

Lemma string_length_app (s t : string) :
  String.length (s ++ t) = (String.length s + String.length t)%nat.
Proof.
  induction s as [|c s IH]; cbn [String.append String.length]; [|rewrite IH]; reflexivity.
Qed.

Lemma string_app_assoc (s t u : string) :
  ((s ++ t) ++ u = s ++ t ++ u)%string.
Proof.
  induction s as [|c s IH]; cbn [String.append]; [|rewrite IH]; reflexivity.
Qed.

Lemma string_app_nil_r (s : string) : (s ++ "")%string = s.
Proof.
  induction s as [|c s IH]; cbn [String.append]; [|rewrite IH]; reflexivity.
Qed.

(** A prefix at least as long as the string is the string. *)
Lemma substring_whole (s : string) (n : nat) :
  (String.length s <= n)%nat -> String.substring 0 n s = s.
Proof.
  revert n. induction s as [|c s IH]; intros n Hn.
  - destruct n; reflexivity.
  - destruct n as [|n]; cbn [String.length] in Hn; [lia|].
    cbn [String.substring]. rewrite IH by lia. reflexivity.
Qed.

Lemma combine_format_length (pa pb : bool) (a b : string) (c : ascii) :
  (String.length (combine_format pa a c pb b)
   <= String.length a + String.length b + 7)%nat.
Proof.
  unfold combine_format. repeat rewrite string_length_app.
  destruct pa, pb; cbn [String.length]; lia.
Qed.

(** The buffer of [strlen a + strlen b + 10] bytes holds the whole text. *)
Lemma snprintf_combine_format (pa pb : bool) (a b : string) (c : ascii) :
  snprintf (strlen a + strlen b + 10) (combine_format pa a c pb b)
  = combine_format pa a c pb b.
Proof.
  unfold snprintf, strlen. apply substring_whole.
  pose proof (combine_format_length pa pb a b c). lia.
Qed.

Lemma combine_format_rendered (a b : string) (c : ascii) :
  combine_format (needs_parentheses a c) a c (needs_parentheses b c) b
  = (rendered a c ++ " " ++ String c "" ++ " " ++ rendered b c)%string.
Proof.
  unfold combine_format, rendered.
  destruct (needs_parentheses a c), (needs_parentheses b c);
    cbn [String.append];
    rewrite ?string_app_assoc, ?string_app_nil_r; cbn [String.append];
    reflexivity.
Qed.

Lemma infix_loop_app (pre rest stack : list string) :
  infix_loop (pre ++ rest) stack =
  match infix_loop pre stack with
  | Next stack' => infix_loop rest stack'
  | Return r => Return r
  | Fault => Fault
  end.
Proof.
  revert stack.
  induction pre as [|t pre IH]; intros stack; cbn [app infix_loop].
  - reflexivity.
  - destruct (infix_token stack t); auto.
Qed.

Lemma convert_returns_at (pre rest : list string) (token : string)
    (stack : list string) (r : ConversionResult) :
  infix_loop pre [] = Next stack ->
  infix_token stack token = Return r ->
  convertToInfix (pre ++ token :: rest) = Done r.
Proof.
  intros Hpre Htok.
  unfold convertToInfix, convert_rpn_to_infix, rpn_to_infix.
  rewrite infix_loop_app, Hpre. cbn [infix_loop]. rewrite Htok. reflexivity.
Qed.

(** An operator token on fewer than two partial expressions. *)
Lemma infix_token_underflow (stack : list string) (token : string) :
  is_operator token = true -> (List.length stack < 2)%nat ->
  infix_token stack token = Return (conv_failure STACK_UNDERFLOW).
Proof.
  intros Hop Hlen. unfold infix_token. rewrite Hop. cbn [negb].
  replace (stack_top stack <? 1) with true; [reflexivity|].
  symmetry. apply Z.ltb_lt. rewrite stack_top_spec. lia.
Qed.

(** An operator token on at least two partial expressions: [b] is popped
    first, [a] second, and their combination is pushed. *)
Lemma infix_token_combines (b a : string) (stack2 : list string) (token : string) :
  is_operator token = true ->
  infix_token (b :: a :: stack2) token =
  Next (combine_format (needs_parentheses a (char_at token 0)) a (char_at token 0)
                       (needs_parentheses b (char_at token 0)) b :: stack2).
Proof.
  intros Hop. unfold infix_token. rewrite Hop. cbn [negb].
  replace (stack_top (b :: a :: stack2) <? 1) with false.
  - rewrite snprintf_combine_format. reflexivity.
  - symmetry. apply Z.ltb_ge. rewrite stack_top_spec. cbn [List.length]. lia.
Qed.

Lemma convert_faults_at (pre rest : list string) (token : string)
    (stack : list string) :
  infix_loop pre [] = Next stack ->
  infix_token stack token = Fault ->
  convertToInfix (pre ++ token :: rest) = Undefined.
Proof.
  intros Hpre Htok.
  unfold convertToInfix, convert_rpn_to_infix, rpn_to_infix.
  rewrite infix_loop_app, Hpre. cbn [infix_loop]. rewrite Htok. reflexivity.
Qed.

(** Whatever came before, a defined variable met by evaluate on 100
    operands, and an operand met by convertToInfix on 100 partial
    expressions, overflow the stack. *)
Lemma push_without_capacity_test (libm : MathLib) (pre rest : list string)
    (token : string) :
  (forall stack : list float,
     evaluate_loop libm (Z.of_nat (List.length (pre ++ token :: rest))) pre [] = Next stack ->
     List.length stack = 100%nat ->
     is_operator token = false -> is_number token = false ->
     defined_variable token = true ->
     evaluate libm (pre ++ token :: rest) = Undefined) /\
  (forall stack : list string,
     infix_loop pre [] = Next stack ->
     List.length stack = 100%nat ->
     is_operator token = false ->
     convertToInfix (pre ++ token :: rest) = Undefined).
Proof.
  split.
  - intros stack Hpre Hfull Hop Hnum Hdef.
    eapply evaluate_faults_at; [exact Hpre|].
    now apply evaluate_token_variable_full.
  - intros stack Hpre Hfull Hop.
    eapply convert_faults_at; [exact Hpre|].
    now apply infix_token_operand_full.
Qed.

(** C8: in convertToInfix an operator token, a named unary function
    included, needs two partial expressions: with fewer than two the
    conversion ends with STACK_UNDERFLOW, with two or more it pops [b],
    then [a], and pushes their combination.  So 9 sqrt fails to convert
    with STACK_UNDERFLOW, while evaluate on 9 sqrt succeeds with 3. *)
Theorem C8_infix_operator_needs_two (libm : MathLib)
    (pre rest : list string) (token : string) (stack : list string) :
  infix_loop pre [] = Next stack ->
  is_operator token = true ->
  ((List.length stack < 2)%nat ->
   convertToInfix (pre ++ token :: rest) = Done (conv_failure STACK_UNDERFLOW)) /\
  (forall (b a : string) (stack2 : list string),
     stack = b :: a :: stack2 ->
     infix_loop (pre ++ [token]) [] =
     Next (combine_format (needs_parentheses a (char_at token 0)) a (char_at token 0)
                          (needs_parentheses b (char_at token 0)) b :: stack2)) /\
  convertToInfix ["9"; "sqrt"] = Done (conv_failure STACK_UNDERFLOW) /\
  evaluate libm ["9"; "sqrt"] = Done {| value := 3%float; error_code := SUCCESS |}.
Proof.
  intros Hpre Hop. split; [|split; [|split]].
  - intros Hlen. eapply convert_returns_at; [exact Hpre|].
    now apply infix_token_underflow.
  - intros b a stack2 ->.
    rewrite infix_loop_app, Hpre. cbn [infix_loop].
    rewrite (infix_token_combines b a stack2 token Hop). reflexivity.
  - reflexivity.
  - vm_compute. reflexivity.
Qed.

Lemma C8_infix_operator_needs_two_witness :
  convertToInfix ["9"; "sqrt"; "1"] = Done (conv_failure STACK_UNDERFLOW) /\
  infix_loop ["7"; "9"; "sqrt"] [] = Next ["7 s 9"].
Proof.
  split.
  - apply (proj1 (C8_infix_operator_needs_two nan_libm ["9"] ["1"] "sqrt" ["9"]
                    eq_refl eq_refl)).
    cbn. lia.
  - apply (proj1 (proj2 (C8_infix_operator_needs_two nan_libm ["7"; "9"] [] "sqrt"
                           ["9"; "7"] eq_refl eq_refl)) "9" "7" []).
    reflexivity.
Defined.

(** C9: when convertToInfix combines two partial expressions, the text
    between them is a space, the first character of the operator token,
    and a space; nothing else of the token is emitted.  The token sqrt is
    rendered as the letter s. *)
Theorem C9_infix_emits_first_character
    (b a : string) (stack2 : list string) (token : string) :
  is_operator token = true ->
  infix_token (b :: a :: stack2) token =
  Next ((rendered a (char_at token 0) ++ " " ++ String (char_at token 0) "" ++ " "
         ++ rendered b (char_at token 0))%string :: stack2) /\
  convertToInfix ["9"; "2"; "sqrt"] =
    Done {| expression := "9 s 2"; conv_error_code := SUCCESS |}.
Proof.
  intros Hop. split.
  - rewrite (infix_token_combines b a stack2 token Hop).
    rewrite combine_format_rendered. reflexivity.
  - reflexivity.
Qed.

Lemma C9_infix_emits_first_character_witness :
  infix_token ["x + y"; "16"] "arctan" = Next ["16 a x + y"] /\
  convertToInfix ["9"; "2"; "sqrt"] =
    Done {| expression := "9 s 2"; conv_error_code := SUCCESS |}.
Proof.
  exact (C9_infix_emits_first_character "x + y" "16" [] "arctan" eq_refl).
Defined.

(** ** The reserved token ans *)

Lemma apply_operator_ans (libm : MathLib) (a b : float) (ec : Z) :
  apply_operator libm "ans" a b ec = Done (PrimFloat.zero, INVALID_OPERATOR).
Proof. reflexivity. Qed.

(** C10: ans is an operator token of the two-operand branch.  With at
    least two values on the stack it pops two, [apply_operator] knows no
    such operator, and the evaluation ends with INVALID_OPERATOR; with
    fewer than two values it ends with STACK_UNDERFLOW. *)
Theorem C10_ans_is_binary_and_invalid (libm : MathLib)
    (pre rest : list string) (stack : list float) :
  evaluate_loop libm (Z.of_nat (List.length (pre ++ "ans" :: rest))) pre [] = Next stack ->
  is_operator "ans" = true /\ is_unary "ans" = false /\
  ((2 <= List.length stack)%nat ->
   evaluate libm (pre ++ "ans" :: rest) = Done (failure INVALID_OPERATOR)) /\
  ((List.length stack < 2)%nat ->
   evaluate libm (pre ++ "ans" :: rest) = Done (failure STACK_UNDERFLOW)).
Proof.
  intros Hpre. split; [reflexivity|]. split; [reflexivity|]. split.
  - intros Hlen. eapply evaluate_returns_at; [exact Hpre|].
    destruct stack as [|b [|a stack2]]; cbn [List.length] in Hlen; try lia.
    unfold evaluate_token.
    replace (stack_top (b :: a :: stack2) <? 1) with false.
    + reflexivity.
    + symmetry. apply Z.ltb_ge. rewrite stack_top_spec. cbn [List.length]. lia.
  - intros Hlen. eapply evaluate_returns_at; [exact Hpre|].
    now apply evaluate_token_binary_underflow.
Qed.

Lemma C10_ans_witness :
  evaluate nan_libm ["1"; "2"; "ans"] = Done (failure INVALID_OPERATOR) /\
  evaluate nan_libm ["1"; "ans"; "2"] = Done (failure STACK_UNDERFLOW).
Proof.
  split.
  - apply (proj1 (proj2 (proj2 (C10_ans_is_binary_and_invalid nan_libm ["1"; "2"] []
                                   [2%float; 1%float] eq_refl)))).
    cbn. lia.
  - apply (proj2 (proj2 (proj2 (C10_ans_is_binary_and_invalid nan_libm ["1"] ["2"]
                                   [1%float] eq_refl)))).
    cbn. lia.
Defined.

(** * Further properties of the evaluator *)

Section EvaluatorDepth.

Variable libm : MathLib.

Lemma stack_room {A : Type} (stack : list A) :
  (stack_top stack + 1 >=? MAX_STACK_SIZE) = false -> (List.length stack < 100)%nat.
Proof.
  rewrite stack_top_spec, Z.geb_leb. intros H. apply Z.leb_gt in H.
  unfold MAX_STACK_SIZE in H. lia.
Qed.

(** What one iteration that goes on does to the depth of the stack. *)
Lemma evaluate_token_depth (len : Z) (stack stack' : list float) (token : string) :
  evaluate_token libm len stack token = Next stack' ->
  (is_operator token = true /\ is_unary token = true /\
   (1 <= List.length stack)%nat /\ List.length stack' = List.length stack) \/
  (is_operator token = true /\ is_unary token = false /\
   (2 <= List.length stack)%nat /\ S (List.length stack') = List.length stack) \/
  (is_operator token = false /\
   (List.length stack < 100)%nat /\ List.length stack' = S (List.length stack)).
Proof.
  unfold evaluate_token.
  destruct (is_operator token); [destruct (is_unary token)|].
  - destruct (stack_top stack <? 0); [discriminate|].
    destruct stack as [|a stack1]; [discriminate|].
    destruct (apply_operator libm token a PrimFloat.zero SUCCESS) as [[v ec]|];
      [|discriminate].
    destruct (negb (ec =? SUCCESS)); [discriminate|].
    intros Hnext; inversion Hnext; subst. left. cbn [List.length]. repeat split; lia.
  - destruct (stack_top stack <? 1); [discriminate|].
    destruct stack as [|b [|a stack2]]; try discriminate.
    destruct (apply_operator libm token a b SUCCESS) as [[v ec]|]; [|discriminate].
    destruct (negb (ec =? SUCCESS)); [discriminate|].
    intros Hnext; inversion Hnext; subst. right; left. cbn [List.length]. repeat split; lia.
  - destruct (is_number token).
    + destruct (stack_top stack + 1 >=? MAX_STACK_SIZE) eqn:Hroom; [discriminate|].
      apply stack_room in Hroom.
      destruct (len >? MAX_EXPR_LENGTH); [discriminate|].
      intros Hnext; inversion Hnext; subst. right; right.
      cbn [List.length]. repeat split; lia.
    + destruct (get_variable_value init_default_variables token SUCCESS) as [v ec].
      destruct (negb (ec =? SUCCESS)); [discriminate|].
      destruct (stack_top stack + 1 >=? MAX_STACK_SIZE) eqn:Hroom; [discriminate|].
      apply stack_room in Hroom.
      intros Hnext; inversion Hnext; subst. right; right.
      cbn [List.length]. repeat split; lia.
Qed.

Lemma counts_cons (token : string) (tokens : list string) :
  operand_count (token :: tokens) =
    ((if is_operator token then 0 else 1) + operand_count tokens)%nat /\
  binary_count (token :: tokens) =
    ((if is_operator token && negb (is_unary token) then 1 else 0)
     + binary_count tokens)%nat /\
  operator_count (token :: tokens) =
    ((if is_operator token then 1 else 0) + operator_count tokens)%nat.
Proof.
  unfold operand_count, binary_count, operator_count. cbn [filter].
  destruct (is_operator token), (is_unary token); cbn; auto.
Qed.

(** The depth after a run: operands push one value, two-operand operators
    take one away, one-operand operators leave the depth as it is. *)
Lemma evaluate_loop_depth (len : Z) (tokens : list string) (stack stack' : list float) :
  evaluate_loop libm len tokens stack = Next stack' ->
  (List.length stack' + binary_count tokens
   = List.length stack + operand_count tokens)%nat.
Proof.
  revert stack. induction tokens as [|t tokens IH]; intros stack; cbn [evaluate_loop].
  - intros Hnext; inversion Hnext; subst. cbn. lia.
  - destruct (evaluate_token libm len stack t) as [stack1| |] eqn:Htok; try discriminate.
    intros Hrest. apply IH in Hrest.
    destruct (counts_cons t tokens) as (Ho & Hb & _). rewrite Ho, Hb.
    apply evaluate_token_depth in Htok.
    destruct Htok as [(-> & -> & ? & ?) | [(-> & -> & ? & ?) | (-> & ? & ?)]];
      cbn [andb negb]; lia.
Qed.

End EvaluatorDepth.



Section EvaluatorResults.

Variable libm : MathLib.

Ltac in_codes :=
  unfold evaluate_error_codes; cbn [In]; repeat (first [left; reflexivity | right]).

Ltac split_ifs :=
  repeat match goal with
         | |- context [if ?c then _ else _] => destruct c
         end.

(** The pairs [apply_operator] can return when called with SUCCESS. *)
Lemma apply_operator_outcomes (op : string) (a b r : float) (ec : Z) :
  apply_operator libm op a b SUCCESS = Done (r, ec) ->
  ec = SUCCESS \/ (r = PrimFloat.zero /\ ec <> SUCCESS /\ In ec evaluate_error_codes).
Proof.
  unfold apply_operator.
  destruct (factorial a SUCCESS) as [[fr fec]|] eqn:Hfact.
  - apply factorial_code in Hfact. destruct Hfact as [-> | ->].
    + change (negb (SUCCESS =? SUCCESS)) with false. cbv iota.
      split_ifs; intros H; inversion H; subst;
        first [left; reflexivity
              | right; split; [reflexivity | split; [discriminate | in_codes]]].
    + change (negb (FACTORIAL_ERROR =? SUCCESS)) with true. cbv iota.
      split_ifs; intros H; inversion H; subst;
        first [left; reflexivity
              | right; split; [reflexivity | split; [discriminate | in_codes]]].
  - split_ifs; intros H; inversion H; subst;
      first [left; reflexivity
            | right; split; [reflexivity | split; [discriminate | in_codes]]].
Qed.

Lemma operator_result_returns (r : float) (ec : Z) (res : CalculationResult)
    (stack : list float) :
  ec = SUCCESS \/ (r = PrimFloat.zero /\ ec <> SUCCESS /\ In ec evaluate_error_codes) ->
  (if negb (ec =? SUCCESS) then Return (failure ec) else Next stack) = Return res ->
  res = failure (error_code res) /\ In (error_code res) evaluate_error_codes.
Proof.
  intros [-> | (_ & _ & Hin)].
  - discriminate.
  - destruct (negb (ec =? SUCCESS)); [|discriminate].
    intros H; inversion H; subst. split; [reflexivity | exact Hin].
Qed.

(** A token that ends the evaluation does so with a failure record. *)
Lemma evaluate_token_return (len : Z) (stack : list float) (token : string)
    (res : CalculationResult) :
  evaluate_token libm len stack token = Return res ->
  res = failure (error_code res) /\ In (error_code res) evaluate_error_codes.
Proof.
  unfold evaluate_token.
  destruct (is_operator token); [destruct (is_unary token)|].
  - destruct (stack_top stack <? 0).
    { intros H; inversion H; subst. split; [reflexivity | in_codes]. }
    destruct stack as [|a stack1]; [discriminate|].
    destruct (apply_operator libm token a PrimFloat.zero SUCCESS) as [[v ec]|] eqn:Happ;
      [|discriminate].
    apply apply_operator_outcomes in Happ.
    now apply operator_result_returns with (r := v).
  - destruct (stack_top stack <? 1).
    { intros H; inversion H; subst. split; [reflexivity | in_codes]. }
    destruct stack as [|b [|a stack2]]; try discriminate.
    destruct (apply_operator libm token a b SUCCESS) as [[v ec]|] eqn:Happ;
      [|discriminate].
    apply apply_operator_outcomes in Happ.
    now apply operator_result_returns with (r := v).
  - destruct (is_number token).
    + destruct (stack_top stack + 1 >=? MAX_STACK_SIZE).
      { intros H; inversion H; subst. split; [reflexivity | in_codes]. }
      destruct (len >? MAX_EXPR_LENGTH); [|discriminate].
      intros H; inversion H; subst. split; [reflexivity | in_codes].
    + destruct (defined_variable token) eqn:Hdef.
      * pose proof (get_variable_value_defined init_default_variables token SUCCESS Hdef) as Hec.
        destruct (get_variable_value init_default_variables token SUCCESS) as [v ec].
        cbn [snd] in Hec. subst ec. cbn [negb Z.eqb SUCCESS].
        destruct (stack_top stack + 1 >=? MAX_STACK_SIZE); discriminate.
      * rewrite (get_variable_value_undefined init_default_variables token SUCCESS Hdef).
        intros H; inversion H; subst. split; [reflexivity | in_codes].
Qed.

Lemma evaluate_loop_return (len : Z) (tokens : list string) (stack : list float)
    (res : CalculationResult) :
  evaluate_loop libm len tokens stack = Return res ->
  res = failure (error_code res) /\ In (error_code res) evaluate_error_codes.
Proof.
  revert stack. induction tokens as [|t tokens IH]; intros stack; cbn [evaluate_loop].
  - discriminate.
  - destruct (evaluate_token libm len stack t) eqn:Htok.
    + apply IH.
    + intros H; inversion H; subst. eapply evaluate_token_return; eauto.
    + discriminate.
Qed.

End EvaluatorResults.

(** A success means the loop ended on exactly one value. *)
Lemma evaluate_result_shape_loop (libm : MathLib) (tokens : list string) (v : float) :
  evaluate libm tokens = Done {| value := v; error_code := SUCCESS |} ->
  evaluate_loop libm (Z.of_nat (List.length tokens)) tokens [] = Next [v] /\
  operand_count tokens = S (binary_count tokens).
Proof.
  unfold evaluate, calculate_rpn, evaluate_rpn.
  destruct (evaluate_loop libm (Z.of_nat (List.length tokens)) tokens [])
    as [stack|r|] eqn:Hloop.
  - destruct (negb (stack_top stack =? 0)) eqn:Htop; [discriminate|].
    intros H; inversion H; subst.
    apply negb_false_iff, Z.eqb_eq in Htop. rewrite stack_top_spec in Htop.
    destruct stack as [|w [|w' stack]]; cbn [List.length] in Htop; try lia.
    cbn [List.last]. split; [reflexivity|].
    apply evaluate_loop_depth in Hloop. cbn [List.length] in Hloop. lia.
  - intros H; inversion H; subst.
    apply evaluate_loop_return in Hloop. destruct Hloop as [_ Hin].
    cbn [error_code] in Hin. unfold evaluate_error_codes in Hin. cbn [In] in Hin.
    repeat (destruct Hin as [Hin|Hin]; [discriminate Hin|]). contradiction.
  - discriminate.
Qed.

(** X2: every result of evaluate on a token sequence is of one of two
    shapes.  A failure carries the value 0 and one of twelve error codes,
    never SUCCESS and never MEMORY_ERROR.  A success means that the run
    ended with exactly one value on the stack, which is the value
    returned, and that the tokens hold one operand more than they hold
    two-operand operators. *)
Theorem evaluate_result_shape (libm : MathLib) (tokens : list string)
    (res : CalculationResult) :
  evaluate libm tokens = Done res ->
  (error_code res = SUCCESS /\
   evaluate_loop libm (Z.of_nat (List.length tokens)) tokens [] = Next [value res] /\
   operand_count tokens = S (binary_count tokens)) \/
  (res = failure (error_code res) /\ In (error_code res) evaluate_error_codes).
Proof.
  unfold evaluate, calculate_rpn, evaluate_rpn.
  destruct (evaluate_loop libm (Z.of_nat (List.length tokens)) tokens [])
    as [stack|r|] eqn:Hloop.
  - destruct (negb (stack_top stack =? 0)) eqn:Htop.
    + intros H; inversion H; subst. right. split; [reflexivity|].
      unfold evaluate_error_codes; cbn [In]. auto.
    + intros H; inversion H; subst. left. cbn [error_code value].
      apply negb_false_iff, Z.eqb_eq in Htop. rewrite stack_top_spec in Htop.
      destruct stack as [|v [|w stack]]; cbn [List.length] in Htop; try lia.
      cbn [List.last]. repeat split.
      apply evaluate_loop_depth in Hloop. cbn [List.length] in Hloop. lia.
  - intros H; inversion H; subst. right. eapply evaluate_loop_return; eauto.
  - discriminate.
Qed.

Lemma evaluate_result_shape_witness :
  operand_count ["2"; "3"; "+"; "sqrt"] = S (binary_count ["2"; "3"; "+"; "sqrt"]) /\
  In DIVISION_BY_ZERO evaluate_error_codes.
Proof.
  split.
  - destruct (evaluate_result_shape nan_libm ["2"; "3"; "+"; "sqrt"]
                {| value := atof "2.236067977"; error_code := SUCCESS |})
      as [(_ & _ & Hcount) | (Hfail & _)].
    + vm_compute. reflexivity.
    + exact Hcount.
    + discriminate Hfail.
  - destruct (evaluate_result_shape nan_libm ["4"; "0"; "/"] (failure DIVISION_BY_ZERO))
      as [(Hok & _) | (_ & Hin)].
    + vm_compute. reflexivity.
    + discriminate Hok.
    + exact Hin.
Defined.

Section EvaluatorSafety.

Variable libm : MathLib.




End EvaluatorSafety.



(** * Further properties of the converter *)

(** What one iteration of the converter that goes on does to its stack. *)
Lemma infix_token_depth (stack stack' : list string) (token : string) :
  infix_token stack token = Next stack' ->
  (is_operator token = true /\
   (2 <= List.length stack)%nat /\ S (List.length stack') = List.length stack) \/
  (is_operator token = false /\
   (List.length stack < 100)%nat /\ stack' = token :: stack).
Proof.
  unfold infix_token.
  destruct (is_operator token); cbn [negb].
  - destruct (stack_top stack <? 1); [discriminate|].
    destruct stack as [|b [|a stack2]]; try discriminate.
    intros Hnext; inversion Hnext; subst. left. cbn [List.length]. repeat split; lia.
  - destruct (stack_top stack + 1 >=? MAX_STACK_SIZE) eqn:Hroom; [discriminate|].
    apply stack_room in Hroom.
    intros Hnext; inversion Hnext; subst. right. repeat split; lia.
Qed.



Lemma infix_loop_no_fault (tokens : list string) (stack : list string) :
  (List.length stack + operand_count tokens <= 100)%nat ->
  infix_loop tokens stack <> Fault.
Proof.
  revert stack. induction tokens as [|t tokens IH]; intros stack Hcount;
    cbn [infix_loop].
  - discriminate.
  - destruct (counts_cons t tokens) as (Ho & _ & _). rewrite Ho in Hcount.
    destruct (infix_token stack t) as [stack1| |] eqn:Htok.
    + apply IH. apply infix_token_depth in Htok.
      destruct Htok as [(Hop & ? & ?) | (Hop & ? & ->)];
        rewrite Hop in Hcount; cbn [List.length]; lia.
    + discriminate.
    + exfalso. revert Htok. unfold infix_token.
      destruct (is_operator t); cbn [negb].
      * destruct (stack_top stack <? 1) eqn:Htop; [discriminate|].
        destruct stack as [|b [|a stack2]]; try discriminate;
          apply Z.ltb_ge in Htop; rewrite stack_top_spec in Htop;
          cbn [List.length] in Htop; lia.
      * replace (stack_top stack + 1 >=? MAX_STACK_SIZE) with false; [discriminate|].
        symmetry. rewrite stack_top_spec, Z.geb_leb. apply Z.leb_gt.
        unfold MAX_STACK_SIZE. lia.
Qed.


(** X4: convertToInfix stays within defined behaviour on every sequence
    with at most 100 operand tokens: no store leaves the stack of partial
    expressions. *)
Theorem convert_defined (tokens : list string) :
  (operand_count tokens <= 100)%nat ->
  convertToInfix tokens <> Undefined.
Proof.
  intros Hcount. unfold convertToInfix, convert_rpn_to_infix, rpn_to_infix.
  pose proof (infix_loop_no_fault tokens [] Hcount) as Hfault.
  destruct (infix_loop tokens []) as [stack|r|].
  - destruct (negb (stack_top stack =? 0)); discriminate.
  - discriminate.
  - contradiction.
Qed.

Lemma convert_defined_witness :
  convertToInfix (repeat "1" 100) <> Undefined.
Proof.
  apply (convert_defined (repeat "1" 100)).
  vm_compute. lia.
Defined.



(** * Classification of tokens *)

Lemma is_operator_names (token : string) :
  is_operator token = true -> In token (unary_operators ++ binary_operators).
Proof.
  unfold is_operator, streq. intros H.
  repeat (apply orb_true_iff in H; destruct H as [H|H]);
    apply String.eqb_eq in H; subst token; cbn; auto 20.
Qed.

(** X6: the three classes of tokens are disjoint, so the order in which
    the classifiers are asked does not matter: an operator token is no
    number and no variable name, and a variable name is no number. *)
Theorem token_classes_disjoint (token : string) :
  (is_operator token = true -> is_number token = false /\ defined_variable token = false) /\
  (defined_variable token = true -> is_number token = false).
Proof.
  split.
  - intros Hop. apply is_operator_names in Hop. cbn in Hop.
    repeat (destruct Hop as [<- | Hop]; [split; reflexivity|]). contradiction.
  - unfold defined_variable, init_default_variables, streq. cbn [existsb name].
    intros H. repeat (apply orb_true_iff in H; destruct H as [H|H]);
      try discriminate; apply String.eqb_eq in H; subst token; reflexivity.
Qed.

(** An operator token of the one-operand branch is one of the ten names. *)
Lemma is_unary_names (token : string) :
  is_operator token = true -> is_unary token = true -> In token unary_operators.
Proof.
  intros Hop Hun. apply is_operator_names in Hop. cbn in Hop. cbn.
  repeat (destruct Hop as [<- | Hop]; [first [discriminate Hun | auto 20]|]).
  contradiction.
Qed.

(** * Evaluation and conversion of the same sequence *)

Lemma infix_token_pushes (stack : list string) (token : string) :
  is_operator token = false -> (List.length stack < 100)%nat ->
  infix_token stack token = Next (token :: stack).
Proof.
  intros Hop Hroom. unfold infix_token. rewrite Hop. cbn [negb].
  replace (stack_top stack + 1 >=? MAX_STACK_SIZE) with false; [reflexivity|].
  symmetry. rewrite stack_top_spec, Z.geb_leb. apply Z.leb_gt.
  unfold MAX_STACK_SIZE. lia.
Qed.

(** Without one-operand operators the two stacks keep the same depth. *)
Lemma loops_in_step (libm : MathLib) (len : Z) (tokens : list string)
    (stack stack' : list float) (sstack : list string) :
  Forall (fun t => ~ In t unary_operators) tokens ->
  List.length sstack = List.length stack ->
  evaluate_loop libm len tokens stack = Next stack' ->
  exists sstack', infix_loop tokens sstack = Next sstack' /\
                  List.length sstack' = List.length stack'.
Proof.
  intros Hall. revert stack sstack.
  induction Hall as [|t tokens Ht Hall IH]; intros stack sstack Hlen;
    cbn [evaluate_loop infix_loop].
  - intros Hnext; inversion Hnext; subst. eauto.
  - destruct (evaluate_token libm len stack t) as [stack1| |] eqn:Htok; try discriminate.
    intros Hrest. apply evaluate_token_depth in Htok.
    destruct Htok as [(Hop & Hun & _) | [(Hop & _ & Hge & Hdepth) | (Hop & Hroom & Hdepth)]].
    + exfalso. apply Ht. now apply is_unary_names.
    + destruct sstack as [|b [|a sstack2]]; cbn [List.length] in Hlen; try lia.
      rewrite (infix_token_combines b a sstack2 t Hop).
      apply (IH stack1); [cbn [List.length]; lia | exact Hrest].
    + rewrite (infix_token_pushes sstack t Hop) by lia.
      apply (IH stack1); [cbn [List.length]; lia | exact Hrest].
Qed.

(** X7: a sequence that evaluate accepts and that holds none of the
    one-operand operator tokens is converted by convertToInfix as well. *)
Theorem evaluate_success_converts (libm : MathLib) (tokens : list string) (v : float) :
  Forall (fun t => ~ In t unary_operators) tokens ->
  evaluate libm tokens = Done {| value := v; error_code := SUCCESS |} ->
  exists text : string,
    convertToInfix tokens = Done {| expression := text; conv_error_code := SUCCESS |}.
Proof.
  intros Hall Heval.
  destruct (evaluate_result_shape_loop libm tokens v Heval) as [Hloop _].
  destruct (loops_in_step libm _ tokens [] [v] [] Hall eq_refl Hloop)
    as (sstack & Hinfix & Hlen).
  unfold convertToInfix, convert_rpn_to_infix, rpn_to_infix. rewrite Hinfix.
  destruct sstack as [|e [|e' sstack]]; cbn [List.length] in Hlen; try lia.
  eexists. reflexivity.
Qed.

Lemma evaluate_success_converts_witness :
  exists text : string,
    convertToInfix ["2"; "3"; "+"; "pi"; "*"]
    = Done {| expression := text; conv_error_code := SUCCESS |}.
Proof.
  apply (evaluate_success_converts nan_libm ["2"; "3"; "+"; "pi"; "*"]
           (atof "15.707963268")).
  - repeat constructor; cbn; intuition discriminate.
  - vm_compute. reflexivity.
Defined.

(** * Further properties of [apply_operator] *)

Section OperatorProperties.

Variable libm : MathLib.

Ltac split_ifs :=
  repeat match goal with
         | |- context [if ?c then _ else _] => destruct c
         end.

(** X8: [apply_operator] knows the operator tokens only.  Called with a
    token that is_operator rejects, whatever the operands, it stores
    INVALID_OPERATOR and returns 0. *)
Theorem apply_operator_rejects_non_operator (op : string) (a b : float) (ec : Z) :
  is_operator op = false ->
  apply_operator libm op a b ec = Done (PrimFloat.zero, INVALID_OPERATOR).
Proof.
  intros Hop. destruct op as [|c [|c' rest]].
  - reflexivity.
  - destruct (Ascii.eqb c "+") eqn:E1;
      [apply Ascii.eqb_eq in E1; subst c; discriminate Hop|].
    destruct (Ascii.eqb c "-") eqn:E2;
      [apply Ascii.eqb_eq in E2; subst c; discriminate Hop|].
    destruct (Ascii.eqb c "*") eqn:E3;
      [apply Ascii.eqb_eq in E3; subst c; discriminate Hop|].
    destruct (Ascii.eqb c "/") eqn:E4;
      [apply Ascii.eqb_eq in E4; subst c; discriminate Hop|].
    destruct (Ascii.eqb c "^") eqn:E5;
      [apply Ascii.eqb_eq in E5; subst c; discriminate Hop|].
    destruct (Ascii.eqb c "!") eqn:E6;
      [apply Ascii.eqb_eq in E6; subst c; discriminate Hop|].
    unfold apply_operator, streq, strlen, char_at. cbn.
    rewrite E1, E2, E3, E4, E5, E6.
    repeat match goal with
           | |- context [Ascii.eqb c ?d] => destruct (Ascii.eqb c d)
           end;
      reflexivity.
  - unfold is_operator in Hop.
    repeat (apply orb_false_iff in Hop; destruct Hop as [Hop ?]).
    unfold apply_operator, strlen.
    repeat match goal with
           | H : streq _ _ = false |- _ => rewrite H; clear H
           end.
    reflexivity.
Qed.

(** X9: whenever [apply_operator], entered with SUCCESS, leaves another
    code, the value it returns is 0 (the NaN of a failed factorial
    included), and the code is one of its eight codes. *)
Theorem apply_operator_failure_value (op : string) (a b r : float) (ec : Z) :
  apply_operator libm op a b SUCCESS = Done (r, ec) ->
  ec <> SUCCESS ->
  r = PrimFloat.zero /\
  In ec [SQUARE_ROOT_INVALID_OPERATOR; TAN_INVALID_OPERATOR; INVALID_TRIG_OPERATOR;
         LOG_ERROR; LN_ERROR; DIVISION_BY_ZERO; INVALID_OPERATOR; FACTORIAL_ERROR].
Proof.
  unfold apply_operator.
  destruct (factorial a SUCCESS) as [[fr fec]|] eqn:Hfact.
  - apply factorial_code in Hfact. destruct Hfact as [-> | ->].
    + change (negb (SUCCESS =? SUCCESS)) with false. cbv iota.
      split_ifs; intros H Hne; inversion H; subst;
        first [contradiction Hne; reflexivity
              | split; [reflexivity | cbn [In]; repeat (first [left; reflexivity | right])]].
    + change (negb (FACTORIAL_ERROR =? SUCCESS)) with true. cbv iota.
      split_ifs; intros H Hne; inversion H; subst;
        first [contradiction Hne; reflexivity
              | split; [reflexivity | cbn [In]; repeat (first [left; reflexivity | right])]].
  - split_ifs; intros H Hne; inversion H; subst;
      first [contradiction Hne; reflexivity
            | split; [reflexivity | cbn [In]; repeat (first [left; reflexivity | right])]].
Qed.

End OperatorProperties.

Lemma apply_operator_rejects_non_operator_witness :
  apply_operator nan_libm "%" 7%float 2%float SUCCESS
  = Done (PrimFloat.zero, INVALID_OPERATOR).
Proof.
  apply (apply_operator_rejects_non_operator nan_libm "%" 7%float 2%float SUCCESS).
  reflexivity.
Defined.

Lemma apply_operator_failure_value_witness :
  PrimFloat.zero = PrimFloat.zero /\
  In FACTORIAL_ERROR
     [SQUARE_ROOT_INVALID_OPERATOR; TAN_INVALID_OPERATOR; INVALID_TRIG_OPERATOR;
      LOG_ERROR; LN_ERROR; DIVISION_BY_ZERO; INVALID_OPERATOR; FACTORIAL_ERROR].
Proof.
  apply (apply_operator_failure_value nan_libm "!" (-1)%float 0%float
           PrimFloat.zero FACTORIAL_ERROR).
  - vm_compute. reflexivity.
  - discriminate.
Defined.

(** * Arithmetic through evaluate *)

Section Arithmetic.

Variable libm : MathLib.

Lemma number_is_no_operator (token : string) :
  is_number token = true -> is_operator token = false.
Proof.
  intros Hnum. destruct (is_operator token) eqn:Hop; [|reflexivity].
  apply is_operator_names in Hop. cbn in Hop.
  repeat (destruct Hop as [<- | Hop]; [discriminate Hnum|]). contradiction.
Qed.

(** Two number tokens leave their values on the stack, the second on top. *)
Lemma evaluate_two_numbers (ta tb : string) :
  is_number ta = true -> is_number tb = true ->
  evaluate_loop libm 3 [ta; tb] [] = Next [atof tb; atof ta].
Proof.
  intros Ha Hb. cbn [evaluate_loop]. unfold evaluate_token.
  rewrite (number_is_no_operator ta Ha), Ha. cbn [stack_top List.length].
  change (Z.of_nat 0 - 1 + 1 >=? MAX_STACK_SIZE) with false.
  change (3 >? MAX_EXPR_LENGTH) with false. cbv iota.
  rewrite (number_is_no_operator tb Hb), Hb. cbn [stack_top List.length].
  change (Z.of_nat 1 - 1 + 1 >=? MAX_STACK_SIZE) with false.
  change (3 >? MAX_EXPR_LENGTH) with false. cbv iota.
  reflexivity.
Qed.

(** X10: for two number tokens followed by an arithmetic operator,
    evaluate applies the operator with the first number as left and the
    second as right operand and rounds the result to 9 decimals; a
    division whose right operand compares equal to zero fails with
    DIVISION_BY_ZERO instead. *)
Theorem evaluate_binary_arithmetic (ta tb : string) :
  is_number ta = true -> is_number tb = true ->
  evaluate libm [ta; tb; "+"] = success (round_to_9_decimals (atof ta + atof tb)) /\
  evaluate libm [ta; tb; "-"] = success (round_to_9_decimals (atof ta - atof tb)) /\
  evaluate libm [ta; tb; "*"] = success (round_to_9_decimals (atof ta * atof tb)) /\
  evaluate libm [ta; tb; "/"] =
    (if PrimFloat.eqb (atof tb) 0
     then Done (failure DIVISION_BY_ZERO)
     else success (round_to_9_decimals (atof ta / atof tb))) /\
  evaluate libm [ta; tb; "^"] =
    success (round_to_9_decimals (c_pow libm (atof ta) (atof tb))).
Proof.
  intros Ha Hb.
  pose proof (evaluate_loop_app libm 3 [ta; tb]) as Happ.
  pose proof (evaluate_two_numbers ta tb Ha Hb) as Hpre.
  unfold evaluate, calculate_rpn, evaluate_rpn, success.
  cbn [List.length Z.of_nat Pos.of_succ_nat Pos.succ].
  repeat split;
    match goal with
    | |- context [evaluate_loop libm 3 [ta; tb; ?op] []] =>
        change [ta; tb; op] with ([ta; tb] ++ [op])%list;
        rewrite (Happ [op] []), Hpre
    end;
    try reflexivity.
  cbn [evaluate_loop]. unfold evaluate_token, apply_operator.
  cbn [is_operator is_unary streq String.eqb Ascii.eqb Bool.eqb orb andb
       strlen String.length Nat.eqb char_at String.get].
  destruct (PrimFloat.eqb (atof tb) 0); reflexivity.
Qed.

End Arithmetic.

Lemma evaluate_binary_arithmetic_witness :
  evaluate nan_libm ["7"; "2"; "-"] = Done {| value := 5%float; error_code := SUCCESS |} /\
  evaluate nan_libm ["7"; "-0.0"; "/"] = Done (failure DIVISION_BY_ZERO).
Proof.
  split.
  - apply (proj1 (proj2 (evaluate_binary_arithmetic nan_libm "7" "2" eq_refl eq_refl))).
  - apply (proj1 (proj2 (proj2 (proj2
             (evaluate_binary_arithmetic nan_libm "7" "-0.0" eq_refl eq_refl))))).
Defined.

(** * Further properties of [needs_parentheses] *)

Lemma code_below_256 (c : ascii) : code c < 256.
Proof.
  unfold code. pose proof (nat_ascii_bounded c). lia.
Qed.

(** No [char] equals the three-byte constant. *)
Lemma never_sqrt_sign (op : ascii) : (code op =? SQRT_SIGN) = false.
Proof.
  apply Z.eqb_neq. pose proof (code_below_256 op). unfold SQRT_SIGN. lia.
Qed.

(** The scan in closed form. *)
Lemma needs_parentheses_scan_closed (expr : string) (op : ascii) :
  needs_parentheses_scan expr op =
  (negb (String.eqb expr "") && Ascii.eqb op "!")
  || ((Ascii.eqb op "*" || Ascii.eqb op "/")
      && contains_char (fun c => Ascii.eqb c "+" || Ascii.eqb c "-") expr)
  || (Ascii.eqb op "^"
      && contains_char (fun c => Ascii.eqb c "*" || Ascii.eqb c "/") expr).
Proof.
  unfold contains_char.
  induction expr as [|c expr IH].
  - cbn. rewrite !andb_false_r. reflexivity.
  - cbn [needs_parentheses_scan list_ascii_of_string existsb String.eqb negb andb].
    rewrite never_sqrt_sign, IH.
    destruct (Ascii.eqb op "!") eqn:E1.
    { reflexivity. }
    destruct (Ascii.eqb op "*") eqn:E2.
    { apply Ascii.eqb_eq in E2. subst op. cbn.
      destruct (Ascii.eqb c "+" || Ascii.eqb c "-"); cbn;
        rewrite ?orb_false_r, ?andb_false_r; reflexivity. }
    destruct (Ascii.eqb op "/") eqn:E3.
    { apply Ascii.eqb_eq in E3. subst op. cbn.
      destruct (Ascii.eqb c "+" || Ascii.eqb c "-"); cbn;
        rewrite ?orb_false_r, ?andb_false_r; reflexivity. }
    destruct (Ascii.eqb op "^") eqn:E4.
    { cbn. destruct (Ascii.eqb c "*" || Ascii.eqb c "/"); cbn;
        rewrite ?orb_false_r, ?andb_false_r; reflexivity. }
    cbn. rewrite ?andb_false_r. reflexivity.
Qed.

(** X11: [needs_parentheses] in closed form.  A side is parenthesised
    exactly when it is longer than one character, is not already enclosed
    in parentheses, and either the operator is the factorial sign, or the
    operator is a product or quotient and the side holds a plus or minus
    sign anywhere, or the operator is the power sign and the side holds a
    product or quotient sign anywhere.  The comparison with the
    square-root sign never holds. *)
Theorem needs_parentheses_closed_form (expr : string) (op : ascii) :
  needs_parentheses expr op =
  Nat.ltb 1 (strlen expr) && negb (enclosed expr)
  && (Ascii.eqb op "!"
      || ((Ascii.eqb op "*" || Ascii.eqb op "/")
          && contains_char (fun c => Ascii.eqb c "+" || Ascii.eqb c "-") expr)
      || (Ascii.eqb op "^"
          && contains_char (fun c => Ascii.eqb c "*" || Ascii.eqb c "/") expr)).
Proof.
  unfold needs_parentheses, enclosed.
  rewrite needs_parentheses_scan_closed.
  destruct (Nat.leb (strlen expr) 1) eqn:Hlen.
  - apply Nat.leb_le in Hlen.
    replace (Nat.ltb 1 (strlen expr)) with false; [reflexivity|].
    symmetry. apply Nat.ltb_ge. exact Hlen.
  - apply Nat.leb_gt in Hlen.
    replace (Nat.ltb 1 (strlen expr)) with true
      by (symmetry; apply Nat.ltb_lt; exact Hlen).
    destruct (Ascii.eqb (char_at expr 0) "(" &&
              Ascii.eqb (char_at expr (strlen expr - 1)) ")"); [reflexivity|].
    destruct expr as [|c expr]; [cbn in Hlen; lia|].
    reflexivity.
Qed.

(** X12: of all operator tokens only ! * / ^ ever parenthesise a side.
    For every other operator token (+, -, the named functions and ans)
    convertToInfix joins the two sides as they are, so the grouping of a
    right-hand side is lost: 1 2 3 - - is rendered as 1 - 2 - 3. *)
Theorem infix_token_without_parentheses
    (b a : string) (stack2 : list string) (token : string) :
  is_operator token = true ->
  ~ In token ["!"; "*"; "/"; "^"] ->
  infix_token (b :: a :: stack2) token =
  Next ((a ++ " " ++ String (char_at token 0) "" ++ " " ++ b)%string :: stack2).
Proof.
  intros Hop Hnot.
  rewrite (infix_token_combines b a stack2 token Hop).
  assert (Hnp : forall side, needs_parentheses side (char_at token 0) = false).
  { intros side. unfold needs_parentheses.
    rewrite needs_parentheses_scan_closed.
    apply is_operator_names in Hop. cbn in Hop.
    repeat (destruct Hop as [<- | Hop];
            [first [exfalso; apply Hnot; cbn; tauto
                   | cbn [char_at String.get Ascii.eqb Bool.eqb andb orb];
                     rewrite ?andb_false_r;
                     destruct (Nat.leb (strlen side) 1); [reflexivity|];
                     destruct (Ascii.eqb (char_at side 0) "(" &&
                               Ascii.eqb (char_at side (strlen side - 1)) ")");
                     reflexivity]|]).
    contradiction. }
  rewrite !Hnp. unfold combine_format. cbn [String.append].
  rewrite string_app_nil_r. reflexivity.
Qed.

Lemma infix_token_without_parentheses_witness :
  infix_token ["2 - 3"; "1"] "-" = Next ["1 - 2 - 3"] /\
  convertToInfix ["1"; "2"; "3"; "-"; "-"] =
    Done {| expression := "1 - 2 - 3"; conv_error_code := SUCCESS |}.
Proof.
  split.
  - apply (infix_token_without_parentheses "2 - 3" "1" [] "-" eq_refl).
    cbn. intuition discriminate.
  - reflexivity.
Defined.

(** * The variable table *)

(** X13: [get_variable_value] on any table returns the value of the first
    entry with the name asked for and leaves the error code as it was;
    when no entry has the name it returns 0 and stores
    UNDEFINED_VARIABLE. *)
Theorem get_variable_value_first_match (nm : string) (ec : Z)
    (before after : list Variable_t) (v : Variable_t) :
  (forall u, In u before -> name u <> nm) ->
  (name v = nm ->
   get_variable_value (before ++ v :: after) nm ec = (var_value v, ec)) /\
  get_variable_value before nm ec = (PrimFloat.zero, UNDEFINED_VARIABLE).
Proof.
  intros Hbefore.
  assert (Hstep : forall rest,
             get_variable_value (before ++ rest) nm ec = get_variable_value rest nm ec).
  { intros rest. induction before as [|u before IH]; cbn [app get_variable_value].
    - reflexivity.
    - assert (Hu : streq (name u) nm = false).
      { apply String.eqb_neq. apply Hbefore. left. reflexivity. }
      rewrite Hu. apply IH. intros w Hw. apply Hbefore. right. exact Hw. }
  split.
  - intros Hname. rewrite Hstep. cbn [get_variable_value].
    unfold streq. rewrite Hname, String.eqb_refl. reflexivity.
  - rewrite <- (app_nil_r before). rewrite Hstep. reflexivity.
Qed.

Lemma get_variable_value_first_match_witness :
  get_variable_value
    [ {| name := "x"; var_value := 1%float |};
      {| name := "y"; var_value := 2%float |};
      {| name := "y"; var_value := 3%float |} ] "y" SUCCESS = (2%float, SUCCESS).
Proof.
  apply (proj1 (get_variable_value_first_match "y" SUCCESS
                  [ {| name := "x"; var_value := 1%float |} ]
                  [ {| name := "y"; var_value := 3%float |} ]
                  {| name := "y"; var_value := 2%float |}
                  ltac:(cbn; intros u [<- | []]; discriminate))).
  reflexivity.
Defined.

(** * Factorial *)

(** X14: [factorial] returns the binary64 value nearest to n! for every
    integer n from 0 to 27, and leaves the error code as it was. *)
Theorem factorial_correct_to_27 (n : nat) (ec : Z) :
  (n <= 27)%nat ->
  factorial (double_of_int (Z.of_nat n)) ec = Done (Z2F (Zfactorial n) 0, ec).
Proof.
  intros Hn.
  do 28 (destruct n as [|n]; [vm_compute; reflexivity|]).
  lia.
Qed.

Lemma factorial_correct_to_27_witness :
  factorial 20%float SUCCESS = Done (2432902008176640000%float, SUCCESS).
Proof.
  apply (factorial_correct_to_27 20 SUCCESS). lia.
Defined.

(** X15: through the factorial operator, whose result is rounded to 9
    decimals, the value returned is exactly n! for every integer n from 0
    to 18. *)
Theorem factorial_operator_exact_to_18 (libm : MathLib) (n : nat) :
  (n <= 18)%nat ->
  apply_operator libm "!" (double_of_int (Z.of_nat n)) PrimFloat.zero SUCCESS
  = Done (Z2F (Zfactorial n) 0, SUCCESS).
Proof.
  intros Hn.
  do 19 (destruct n as [|n]; [vm_compute; reflexivity|]).
  lia.
Qed.

Lemma factorial_operator_exact_to_18_witness :
  apply_operator nan_libm "!" 18%float PrimFloat.zero SUCCESS
  = Done (6402373705728000%float, SUCCESS).
Proof.
  apply (factorial_operator_exact_to_18 nan_libm 18). lia.
Defined.

(** The rounding to 9 decimals changes 19!. *)
Example factorial_operator_19 (libm : MathLib) :
  factorial 19%float SUCCESS = Done (Z2F (Zfactorial 19) 0, SUCCESS) /\
  apply_operator libm "!" 19%float PrimFloat.zero SUCCESS
  <> Done (Z2F (Zfactorial 19) 0, SUCCESS).
Proof.
  split; [vm_compute; reflexivity|].
  vm_compute. intros H. inversion H.
Qed.

(** * Failing fast *)

Section FailFast.

Variable libm : MathLib.

(** Within the length limit the length plays no part in an iteration. *)
Lemma evaluate_token_length_irrelevant (len len' : Z) (stack : list float)
    (token : string) :
  len <= MAX_EXPR_LENGTH -> len' <= MAX_EXPR_LENGTH ->
  evaluate_token libm len stack token = evaluate_token libm len' stack token.
Proof.
  intros Hlen Hlen'. unfold evaluate_token.
  replace (len >? MAX_EXPR_LENGTH) with false
    by (symmetry; rewrite Z.gtb_ltb; apply Z.ltb_ge; exact Hlen).
  replace (len' >? MAX_EXPR_LENGTH) with false
    by (symmetry; rewrite Z.gtb_ltb; apply Z.ltb_ge; exact Hlen').
  reflexivity.
Qed.

Lemma evaluate_loop_length_irrelevant (len len' : Z) (tokens : list string)
    (stack : list float) :
  len <= MAX_EXPR_LENGTH -> len' <= MAX_EXPR_LENGTH ->
  evaluate_loop libm len tokens stack = evaluate_loop libm len' tokens stack.
Proof.
  intros Hlen Hlen'. revert stack.
  induction tokens as [|t tokens IH]; intros stack; cbn [evaluate_loop].
  - reflexivity.
  - rewrite (evaluate_token_length_irrelevant len len' stack t Hlen Hlen').
    destruct (evaluate_token libm len' stack t); auto.
Qed.

End FailFast.

(** X16: both operations fail fast.  When the run over a sequence ends
    with a failure at one of its tokens, every extension of the sequence
    fails with the same result: for evaluate as long as the extension
    holds at most 1000 tokens, for convertToInfix always. *)
Theorem failure_survives_extension (libm : MathLib) (pre rest : list string) :
  (forall res : CalculationResult,
     (List.length (pre ++ rest) <= 1000)%nat ->
     evaluate_loop libm (Z.of_nat (List.length pre)) pre [] = Return res ->
     evaluate libm (pre ++ rest) = Done res) /\
  (forall res : ConversionResult,
     infix_loop pre [] = Return res ->
     convertToInfix (pre ++ rest) = Done res).
Proof.
  split.
  - intros res Hlen Hpre.
    unfold evaluate, calculate_rpn, evaluate_rpn.
    rewrite evaluate_loop_app.
    rewrite (evaluate_loop_length_irrelevant libm _ (Z.of_nat (List.length pre))).
    + rewrite Hpre. reflexivity.
    + unfold MAX_EXPR_LENGTH. lia.
    + rewrite length_app in Hlen. unfold MAX_EXPR_LENGTH. lia.
  - intros res Hpre.
    unfold convertToInfix, convert_rpn_to_infix, rpn_to_infix.
    rewrite infix_loop_app, Hpre. reflexivity.
Qed.

Lemma failure_survives_extension_witness :
  evaluate nan_libm ["4"; "0"; "/"; "1"; "+"] = Done (failure DIVISION_BY_ZERO) /\
  convertToInfix ["4"; "/"; "1"; "2"; "+"] = Done (conv_failure STACK_UNDERFLOW).
Proof.
  split.
  - apply (proj1 (failure_survives_extension nan_libm ["4"; "0"; "/"] ["1"; "+"])).
    + cbn. lia.
    + vm_compute. reflexivity.
  - apply (proj2 (failure_survives_extension nan_libm ["4"; "/"] ["1"; "2"; "+"])).
    reflexivity.
Defined.

(** * Functions of one operand through evaluate *)

Section UnaryFunctions.

Variable libm : MathLib.

Lemma evaluate_one_number (len : Z) (ta : string) :
  len <= MAX_EXPR_LENGTH ->
  is_number ta = true ->
  evaluate_loop libm len [ta] [] = Next [atof ta].
Proof.
  intros Hlen Ha. cbn [evaluate_loop]. unfold evaluate_token.
  rewrite (number_is_no_operator ta Ha), Ha. cbn [stack_top List.length].
  change (Z.of_nat 0 - 1 + 1 >=? MAX_STACK_SIZE) with false.
  replace (len >? MAX_EXPR_LENGTH) with false
    by (symmetry; rewrite Z.gtb_ltb; apply Z.ltb_ge; exact Hlen).
  reflexivity.
Qed.

Local Open Scope float_scope.

(** X17: for a number token followed by a named function, evaluate checks
    the domain of the function on the number and either fails with the
    code of that function or returns the value of the function rounded to
    9 decimals: the square root refuses numbers below 0, both logarithms
    refuse numbers that are not above 0, arcsin and arccos refuse numbers
    outside [-1, 1], and sin, cos and arctan refuse nothing. *)
Theorem evaluate_unary_function (ta : string) :
  is_number ta = true ->
  let a := atof ta in
  evaluate libm [ta; "sqrt"] =
    (if a <? 0 then Done (failure SQUARE_ROOT_INVALID_OPERATOR)
     else success (round_to_9_decimals (PrimFloat.sqrt a))) /\
  evaluate libm [ta; "log"] =
    (if a <=? 0 then Done (failure LOG_ERROR)
     else success (round_to_9_decimals (c_log10 libm a))) /\
  evaluate libm [ta; "ln"] =
    (if a <=? 0 then Done (failure LN_ERROR)
     else success (round_to_9_decimals (c_log libm a))) /\
  evaluate libm [ta; "arcsin"] =
    (if (a <? -1) || (1 <? a) then Done (failure INVALID_TRIG_OPERATOR)
     else success (round_to_9_decimals (c_asin libm a))) /\
  evaluate libm [ta; "arccos"] =
    (if (a <? -1) || (1 <? a) then Done (failure INVALID_TRIG_OPERATOR)
     else success (round_to_9_decimals (c_acos libm a))) /\
  evaluate libm [ta; "sin"] = success (round_to_9_decimals (c_sin libm a)) /\
  evaluate libm [ta; "cos"] = success (round_to_9_decimals (c_cos libm a)) /\
  evaluate libm [ta; "arctan"] = success (round_to_9_decimals (c_atan libm a)).
Proof.
  intros Ha a.
  pose proof (evaluate_loop_app libm 2 [ta]) as Happ.
  assert (Hpre : evaluate_loop libm 2 [ta] [] = Next [a]).
  { apply evaluate_one_number; [unfold MAX_EXPR_LENGTH; lia | exact Ha]. }
  unfold evaluate, calculate_rpn, evaluate_rpn, success.
  cbn [List.length Z.of_nat Pos.of_succ_nat Pos.succ].
  repeat split;
    match goal with
    | |- context [evaluate_loop libm 2 [ta; ?op] []] =>
        change [ta; op] with ([ta] ++ [op])%list;
        rewrite (Happ [op] []), Hpre
    end;
    cbn [evaluate_loop]; unfold evaluate_token, apply_operator;
    cbn [is_operator is_unary streq String.eqb Ascii.eqb Bool.eqb orb andb
         strlen String.length Nat.eqb char_at String.get stack_top List.length];
    try reflexivity.
  - destruct (a <? 0); reflexivity.
  - destruct (a <=? 0); reflexivity.
  - destruct (a <=? 0); reflexivity.
  - destruct ((a <? -1) || (1 <? a)); reflexivity.
  - destruct ((a <? -1) || (1 <? a)); reflexivity.
Qed.

End UnaryFunctions.

Lemma evaluate_unary_function_witness :
  evaluate nan_libm ["16"; "sqrt"] = success 4%float /\
  evaluate nan_libm ["0"; "ln"] = Done (failure LN_ERROR).
Proof.
  split.
  - apply (proj1 (evaluate_unary_function nan_libm "16" eq_refl)).
  - apply (proj1 (proj2 (proj2 (evaluate_unary_function nan_libm "0" eq_refl)))).
Defined.
